(** * AlterBooth_Func_GetInfo: the GA4 report function

    A shallow embedding of [function_app.py]: the report request built by
    [get_ga4_report], the row flattening and JSON rendering of
    [format_response_as_json], and the HTTP-triggered [main] with its queue and
    document outputs.

    Python [str] values are modelled as [string], the UTF-8 bytes of the text.
    Python dictionaries are insertion-ordered association lists with distinct
    keys.  Exceptions and the effects of an invocation (log records, writes to
    the two output bindings) are threaded through a small monad.  The
    analytics library is a parameter of the model: reading the key file,
    building the request message and running a report each return or raise.
    What the client hands back is an object known by what reading its
    attributes gives; a [RunReportResponse] message is one such object.  The statements run at import
    time (loading [.env], printing the credentials path) take no part in an
    invocation and are left out. *)

From Stdlib Require Import String Ascii List Bool Arith NArith ZArith Lia.
Import ListNotations.
Local Open Scope list_scope.
Local Open Scope string_scope.

(** ** Python dictionaries *)

Module PyDict.

(** A [dict] with [str] keys: the pairs in insertion order. *)
Definition t (V : Type) : Type := list (string * V).

Definition empty {V} : t V := [].

(** [d[k] = v]: an existing key keeps its position and takes the new value;
    a new key goes last. *)
Fixpoint set {V} (k : string) (v : V) (d : t V) : t V :=
  match d with
  | [] => [(k, v)]
  | (k', v') :: d' =>
      if String.eqb k k' then (k', v) :: d' else (k', v') :: set k v d'
  end.

Fixpoint get {V} (k : string) (d : t V) : option V :=
  match d with
  | [] => None
  | (k', v') :: d' => if String.eqb k k' then Some v' else get k d'
  end.

Definition keys {V} (d : t V) : list string := map fst d.

(** The pairs stored from left to right into [d]. *)
Definition store {V} (pairs : list (string * V)) (d : t V) : t V :=
  fold_left (fun d kv => set (fst kv) (snd kv) d) pairs d.

(** [{k: v for k, v in pairs}] and [dict(pairs)]. *)
Definition of_pairs {V} (pairs : list (string * V)) : t V :=
  store pairs empty.

End PyDict.

(** ** JSON values and [json.dumps] *)

(** The Python values the program hands to [json.dumps]: [str], [list] and
    [dict] with [str] keys. *)
Unset Elimination Schemes.
Inductive json : Type :=
| JStr (s : string)
| JArr (items : list json)
| JObj (members : list (string * json)).
Set Elimination Schemes.

Local Open Scope N_scope.

(** The code of a character, and the character of a code below 256. *)
Definition ord (c : ascii) : N := N_of_ascii c.
Definition chr (n : N) : ascii := ascii_of_N n.

(** The double quote. *)
Definition dquote : ascii := chr 34.

(** One digit of the format [{0:04x}]. *)
Definition hex_digit (n : N) : ascii :=
  if n <? 10 then chr (48 + n) else chr (87 + n).

(** [ESCAPE_DCT] of the [json.encoder] module: the replacement of one
    character by [py_encode_basestring] (used when [ensure_ascii] is false).
    Only the quote, the backslash and the control characters below 0x20 are
    replaced; every other byte, the bytes of non-ASCII characters included,
    is kept. *)
Definition escape_char (c : ascii) : string :=
  let n := ord c in
  if N.eqb n 34 then String "\" (String dquote "")
  else if N.eqb n 92 then String "\" (String "\" "")
  else if N.eqb n 8 then String "\" (String "b" "")
  else if N.eqb n 12 then String "\" (String "f" "")
  else if N.eqb n 10 then String "\" (String "n" "")
  else if N.eqb n 13 then String "\" (String "r" "")
  else if N.eqb n 9 then String "\" (String "t" "")
  else if N.ltb n 32 then
    String "\" (String "u" (String "0" (String "0"
      (String (hex_digit (n / 16)) (String (hex_digit (n mod 16)) "")))))
  else String c "".

Fixpoint escape (s : string) : string :=
  match s with
  | EmptyString => ""
  | String c s' => escape_char c ++ escape s'
  end.

Definition quote : string := String dquote "".

Definition py_encode_basestring (s : string) : string :=
  quote ++ escape s ++ quote.

Local Close Scope N_scope.

Fixpoint spaces (n : nat) : string :=
  match n with
  | 0 => ""
  | S n' => String " " (spaces n')
  end.

Definition newline : string := String (chr 10%N) "".

(** [newline_indent] of [_make_iterencode] at nesting level [lvl], for
    [indent=4]. *)
Definition newline_indent (lvl : nat) : string := newline ++ spaces (4 * lvl).

(** [_iterencode] with [indent=4], item separator [","] and key separator
    [": "]; [lvl] is [_current_indent_level]. *)
Fixpoint iterencode (lvl : nat) (v : json) : string :=
  match v with
  | JStr s => py_encode_basestring s
  | JArr [] => "[]"
  | JArr (x :: xs) =>
      "[" ++ newline_indent (S lvl) ++ iterencode (S lvl) x
      ++ (fix rest (l : list json) : string :=
            match l with
            | [] => ""
            | y :: l' =>
                "," ++ newline_indent (S lvl) ++ iterencode (S lvl) y ++ rest l'
            end) xs
      ++ newline_indent lvl ++ "]"
  | JObj [] => "{}"
  | JObj ((k, x) :: ms) =>
      "{" ++ newline_indent (S lvl)
      ++ py_encode_basestring k ++ ": " ++ iterencode (S lvl) x
      ++ (fix rest (l : list (string * json)) : string :=
            match l with
            | [] => ""
            | (k', y) :: l' =>
                "," ++ newline_indent (S lvl)
                ++ py_encode_basestring k' ++ ": " ++ iterencode (S lvl) y
                ++ rest l'
            end) ms
      ++ newline_indent lvl ++ "}"
  end.

(** [json.dumps(v, indent=4, ensure_ascii=False)]. *)
Definition json_dumps (v : json) : string := iterencode 0 v.

(** The text [iterencode] puts after the first element of a list: a
    separator and the encoding for each further element. *)
Definition items_tail (lvl : nat) : list json -> string :=
  fix rest (l : list json) : string :=
    match l with
    | [] => ""
    | y :: l' =>
        "," ++ newline_indent (S lvl) ++ iterencode (S lvl) y ++ rest l'
    end.

(** Likewise after the first member of a dictionary. *)
Definition members_tail (lvl : nat) : list (string * json) -> string :=
  fix rest (l : list (string * json)) : string :=
    match l with
    | [] => ""
    | (k', y) :: l' =>
        "," ++ newline_indent (S lvl)
        ++ py_encode_basestring k' ++ ": " ++ iterencode (S lvl) y
        ++ rest l'
    end.

(** A value is a Python value when the keys of each of its dictionaries are
    distinct. *)
Unset Elimination Schemes.
Inductive wf_json : json -> Prop :=
| wf_JStr s : wf_json (JStr s)
| wf_JArr l : Forall wf_json l -> wf_json (JArr l)
| wf_JObj ms :
    NoDup (map fst ms) -> Forall (fun kv => wf_json (snd kv)) ms ->
    wf_json (JObj ms).
Set Elimination Schemes.

(** Induction over values, with the hypothesis for every element of a list
    and every member of a dictionary. *)
Fixpoint json_ind (P : json -> Prop)
    (HStr : forall s, P (JStr s))
    (HArr : forall l, Forall P l -> P (JArr l))
    (HObj : forall ms, Forall (fun kv => P (snd kv)) ms -> P (JObj ms))
    (v : json) : P v :=
  match v with
  | JStr s => HStr s
  | JArr l =>
      HArr l ((fix all (l : list json) : Forall P l :=
                 match l with
                 | [] => Forall_nil P
                 | x :: l' =>
                     Forall_cons x (json_ind P HStr HArr HObj x) (all l')
                 end) l)
  | JObj ms =>
      HObj ms ((fix all (l : list (string * json))
                  : Forall (fun kv => P (snd kv)) l :=
                  match l with
                  | [] => Forall_nil _
                  | kv :: l' =>
                      Forall_cons kv (json_ind P HStr HArr HObj (snd kv))
                        (all l')
                  end) ms)
  end.

(** The number of parser calls that reading a value back takes. *)
Fixpoint weight (v : json) : nat :=
  match v with
  | JStr _ => 1
  | JArr l =>
      S ((fix sum (l : list json) : nat :=
            match l with
            | [] => 0
            | x :: l' => S (weight x + sum l')
            end) l)
  | JObj ms =>
      S ((fix sum (l : list (string * json)) : nat :=
            match l with
            | [] => 0
            | kv :: l' => S (weight (snd kv) + sum l')
            end) ms)
  end.

Definition weight_items (l : list json) : nat :=
  fold_right (fun x n => S (weight x + n)) 0 l.

Definition weight_members (l : list (string * json)) : nat :=
  fold_right (fun kv n => S (weight (snd kv) + n)) 0 l.

(** ** [json.loads]

    The decoder of the [json] package on the fragment of JSON that the
    program emits: strings, arrays and objects.  Numbers and the literals
    [true], [false] and [null] are outside the fragment and are refused here,
    as are [\u] escapes of surrogate code points. *)

Local Open Scope N_scope.

Definition is_ws (c : ascii) : bool :=
  let n := ord c in
  N.eqb n 32 || N.eqb n 9 || N.eqb n 10 || N.eqb n 13.

Fixpoint skip_ws (s : string) : string :=
  match s with
  | String c s' => if is_ws c then skip_ws s' else s
  | EmptyString => s
  end.

Definition hex_value (c : ascii) : option N :=
  let n := ord c in
  if N.leb 48 n && N.leb n 57 then Some (n - 48)
  else if N.leb 97 n && N.leb n 102 then Some (n - 87)
  else if N.leb 65 n && N.leb n 70 then Some (n - 55)
  else None.

(** The UTF-8 bytes of a code point of the basic plane. *)
Definition utf8_encode (n : N) : option string :=
  if N.ltb n 128 then Some (String (chr n) "")
  else if N.ltb n 2048 then
    Some (String (chr (192 + n / 64))
         (String (chr (128 + n mod 64)) ""))
  else if N.leb 55296 n && N.leb n 57343 then None
  else
    Some (String (chr (224 + n / 4096))
         (String (chr (128 + (n / 64) mod 64))
         (String (chr (128 + n mod 64)) ""))).

(** [BACKSLASH] of the [json.decoder] module. *)
Definition unescape_char (c : ascii) : option ascii :=
  let n := ord c in
  if N.eqb n 34 then Some c
  else if N.eqb n 92 then Some c
  else if N.eqb n 47 then Some c
  else if N.eqb n 98 then Some (chr 8)
  else if N.eqb n 102 then Some (chr 12)
  else if N.eqb n 110 then Some (chr 10)
  else if N.eqb n 114 then Some (chr 13)
  else if N.eqb n 116 then Some (chr 9)
  else None.

Definition prepend (p : string) (r : option (string * string))
  : option (string * string) :=
  match r with
  | Some (s, rest) => Some (p ++ s, rest)
  | None => None
  end.

(** [py_scanstring] in strict mode, entered after the opening quote: the
    decoded text and the input left after the closing quote. *)
Fixpoint scanstring (s : string) : option (string * string) :=
  match s with
  | EmptyString => None
  | String c s' =>
      if N.eqb (ord c) 34 then Some ("", s')
      else if N.eqb (ord c) 92 then
        match s' with
        | EmptyString => None
        | String e s'' =>
            if N.eqb (ord e) 117 then
              match s'' with
              | String h1 (String h2 (String h3 (String h4 r))) =>
                  match hex_value h1, hex_value h2, hex_value h3, hex_value h4 with
                  | Some a, Some b, Some c', Some d =>
                      match utf8_encode (((a * 16 + b) * 16 + c') * 16 + d) with
                      | Some p => prepend p (scanstring r)
                      | None => None
                      end
                  | _, _, _, _ => None
                  end
              | _ => None
              end
            else
              match unescape_char e with
              | Some ch => prepend (String ch "") (scanstring s'')
              | None => None
              end
        end
      else if N.ltb (ord c) 32 then None
      else prepend (String c "") (scanstring s')
  end.

Definition starts_with (c : N) (s : string) : option string :=
  match s with
  | String c' s' => if N.eqb (ord c') c then Some s' else None
  | EmptyString => None
  end.

(** [scan_once], [JSONArray] and [JSONObject].  [fuel] bounds the number of
    nested calls; [json_loads] below supplies enough of it for any input.
    [parse_value] expects the first character of a value, [parse_items] the
    first character of an array element, [parse_members] the text after the
    opening quote of a key.  An object is built as [dict(pairs)]. *)
Fixpoint parse_value (fuel : nat) (s : string) : option (json * string) :=
  match fuel with
  | O => None
  | S fuel' =>
      match s with
      | EmptyString => None
      | String c s' =>
          let n := ord c in
          if N.eqb n 34 then
            match scanstring s' with
            | Some (str, r) => Some (JStr str, r)
            | None => None
            end
          else if N.eqb n 91 then
            match starts_with 93 (skip_ws s') with
            | Some r => Some (JArr [], r)
            | None =>
                match parse_items fuel' (skip_ws s') with
                | Some (l, r) => Some (JArr l, r)
                | None => None
                end
            end
          else if N.eqb n 123 then
            match starts_with 125 (skip_ws s') with
            | Some r => Some (JObj PyDict.empty, r)
            | None =>
                match starts_with 34 (skip_ws s') with
                | Some r =>
                    match parse_members fuel' r with
                    | Some (ms, r') => Some (JObj (PyDict.of_pairs ms), r')
                    | None => None
                    end
                | None => None
                end
            end
          else None
      end
  end

with parse_items (fuel : nat) (s : string) : option (list json * string) :=
  match fuel with
  | O => None
  | S fuel' =>
      match parse_value fuel' s with
      | None => None
      | Some (v, r) =>
          match starts_with 93 (skip_ws r) with
          | Some r' => Some ([v], r')
          | None =>
              match starts_with 44 (skip_ws r) with
              | None => None
              | Some r' =>
                  match parse_items fuel' (skip_ws r') with
                  | Some (l, r'') => Some (v :: l, r'')
                  | None => None
                  end
              end
          end
      end
  end

with parse_members (fuel : nat) (s : string)
  : option (list (string * json) * string) :=
  match fuel with
  | O => None
  | S fuel' =>
      match scanstring s with
      | None => None
      | Some (k, r) =>
          match starts_with 58 (skip_ws r) with
          | None => None
          | Some r1 =>
              match parse_value fuel' (skip_ws r1) with
              | None => None
              | Some (v, r2) =>
                  match starts_with 125 (skip_ws r2) with
                  | Some r' => Some ([(k, v)], r')
                  | None =>
                      match starts_with 44 (skip_ws r2) with
                      | None => None
                      | Some r3 =>
                          match starts_with 34 (skip_ws r3) with
                          | None => None
                          | Some r4 =>
                              match parse_members fuel' r4 with
                              | Some (ms, r') => Some ((k, v) :: ms, r')
                              | None => None
                              end
                          end
                      end
                  end
              end
          end
      end
  end.

Local Close Scope N_scope.

(** [json.loads(s)]: one value, surrounded by optional white space.  No
    call of the parser consumes fewer than one character, so the length of
    the text is enough fuel. *)
Definition json_loads (s : string) : option json :=
  match parse_value (S (String.length s)) (skip_ws s) with
  | Some (v, r) =>
      match skip_ws r with
      | EmptyString => Some v
      | String _ _ => None
      end
  | None => None
  end.

(** ** Exceptions, effects and the monad of an invocation *)

(** An [Exception]; [str_of e] is what [f'{e}'] renders. *)
Record Exception : Type := { str_of : string }.

(** A [BaseException] that is no [Exception] ([KeyboardInterrupt],
    [SystemExit], [GeneratorExit]): a clause [except Exception] lets it
    pass. *)
Record BaseException : Type := { base_str_of : string }.

(** What evaluating an expression comes to: a value, an [Exception] raised,
    or a [BaseException] of the other kind raised. *)
Inductive result (A : Type) : Type :=
| Ok (a : A)
| Err (e : Exception)
| Exit (b : BaseException).
Arguments Ok {A} & a.
Arguments Err {A} e.
Arguments Exit {A} b.

(** Sequencing of evaluations, and the evaluation of [f] on the items of a
    list from left to right, as a comprehension or a [for] loop does it: the
    first one that raises ends it. *)
Definition and_then {A B} (r : result A) (k : A -> result B) : result B :=
  match r with
  | Ok a => k a
  | Err e => Err e
  | Exit b => Exit b
  end.

Fixpoint each {A B} (f : A -> result B) (l : list A) : result (list B) :=
  match l with
  | [] => Ok []
  | x :: l' =>
      and_then (f x) (fun y => and_then (each f l') (fun ys => Ok (y :: ys)))
  end.

(** [func.Document]: the dictionary it was built from. *)
Definition Document : Type := PyDict.t string.

Inductive level : Type := INFO | ERROR.

(** What an invocation does to the outside: records handed to [logging], and
    [set] calls on the two output bindings of [main]. *)
Inductive event : Type :=
| Log (lvl : level) (text : string)
| OutputDocumentSet (doc : Document)
| MsgSet (text : string).

Definition trace : Type := list event.

(** A computation: from the events so far to a value or an exception, and
    the events extended by its own.  Events emitted before an exception
    stay. *)
Definition M (A : Type) : Type := trace -> result A * trace.

Definition ret {A} (a : A) : M A := fun tr => (Ok a, tr).

Definition raise {A} (e : Exception) : M A := fun tr => (Err e, tr).

Definition bind {A B} (m : M A) (k : A -> M B) : M B :=
  fun tr =>
    match m tr with
    | (Ok a, tr') => k a tr'
    | (Err e, tr') => (Err e, tr')
    | (Exit b, tr') => (Exit b, tr')
    end.

(** [try: m  except Exception as e: h e].  Only an [Exception] reaches the
    handler. *)
Definition try_except {A} (m : M A) (h : Exception -> M A) : M A :=
  fun tr =>
    match m tr with
    | (Ok a, tr') => (Ok a, tr')
    | (Err e, tr') => h e tr'
    | (Exit b, tr') => (Exit b, tr')
    end.

Definition emit (ev : event) : M unit := fun tr => (Ok tt, (tr ++ [ev])%list).

(** An evaluation without events of its own: a call into a library, a read
    of an attribute. *)
Definition call {A} (r : result A) : M A := fun tr => (r, tr).

Notation "x <- m ;; k" := (bind m (fun x => k))
  (at level 61, m at next level, right associativity).
Notation "m ;; k" := (bind m (fun _ => k))
  (at level 61, right associativity).

Definition logging_info (text : string) : M unit := emit (Log INFO text).
Definition logging_error (text : string) : M unit := emit (Log ERROR text).

(** ** The report types of [google.analytics.data_v1beta] *)

Record Dimension : Type := { dim_name : string }.
Record Metric : Type := { met_name : string }.
Record MetricOrderBy : Type := { metric_name : string }.
Record OrderBy : Type := { ob_metric : MetricOrderBy; ob_desc : bool }.
Record DateRange : Type := { start_date : string; end_date : string }.

(** A repeated field given as [None] is empty. *)
Record RunReportRequest : Type := {
  rq_property : string;
  rq_date_ranges : list DateRange;
  rq_dimensions : list Dimension;
  rq_metrics : list Metric;
  rq_order_bys : list OrderBy;
  rq_limit : Z
}.

Record DimensionHeader : Type := { dh_name : string }.
Record MetricHeader : Type := { mh_name : string }.
Record DimensionValue : Type := { dv_value : string }.
Record MetricValue : Type := { mv_value : string }.

Record Row : Type := {
  dimension_values : list DimensionValue;
  metric_values : list MetricValue
}.

Record RunReportResponse : Type := {
  dimension_headers : list DimensionHeader;
  metric_headers : list MetricHeader;
  rows : list Row
}.

(** ** Objects passed as a response *)

(** What [dim_value.value] can give for the purposes of [json.dumps]: a
    [str], or an object that the encoder refuses with the exception
    carried. *)
Inductive pyvalue : Type :=
| Text (s : string)
| Unserializable (e : Exception).

(** An object is known by what reading its attributes gives.  A read
    returns, or raises: [AttributeError] when the attribute is missing, and,
    for an attribute the code iterates, [TypeError] when what it holds
    cannot be iterated.  The read and the start of the iteration are one
    step of the code for each of the list-valued attributes below. *)
Record PyHeader : Type := { read_name : result string }.
Record PyValue : Type := { read_value : result pyvalue }.

Record PyRow : Type := {
  read_dimension_values : result (list PyValue);
  read_metric_values : result (list PyValue)
}.

Record PyResponse : Type := {
  read_rows : result (list PyRow);
  read_dimension_headers : result (list PyHeader);
  read_metric_headers : result (list PyHeader)
}.

(** A [RunReportResponse] message as such an object: every read returns. *)
Definition row_object (row : Row) : PyRow :=
  {| read_dimension_values :=
       Ok (map (fun v => {| read_value := Ok (Text (dv_value v)) |})
             (dimension_values row));
     read_metric_values :=
       Ok (map (fun v => {| read_value := Ok (Text (mv_value v)) |})
             (metric_values row)) |}.

Definition message (response : RunReportResponse) : PyResponse :=
  {| read_rows := Ok (map row_object (rows response));
     read_dimension_headers :=
       Ok (map (fun h => {| read_name := Ok (dh_name h) |})
             (dimension_headers response));
     read_metric_headers :=
       Ok (map (fun h => {| read_name := Ok (mh_name h) |})
             (metric_headers response)) |}.

Coercion message : RunReportResponse >-> PyResponse.

(** The [data] built for a row of a message, before it is encoded. *)
Definition message_data (response : RunReportResponse) (row : Row)
  : PyDict.t pyvalue * PyDict.t pyvalue :=
  (map (fun kv => (fst kv, Text (snd kv)))
     (PyDict.of_pairs
        (map (fun p => (fst p, dv_value (snd p)))
           (combine (map dh_name (dimension_headers response))
              (dimension_values row)))),
   map (fun kv => (fst kv, Text (snd kv)))
     (PyDict.of_pairs
        (map (fun p => (fst p, mv_value (snd p)))
           (combine (map mh_name (metric_headers response))
              (metric_values row))))).

(** The analytics library as one invocation sees it: building the client
    from the key file, the [ValueError] with which [RunReportRequest]
    refuses a limit outside the range of its [int64] field, and running a
    report. *)
Record Backend : Type := {
  from_service_account_file : string -> result unit;
  limit_refused : Z -> Exception;
  run_report : RunReportRequest -> result PyResponse
}.

(** ** [get_ga4_report] *)

Definition KEY_FILE_LOCATION : string := "ga4account.json".
Definition PROPERTY_ID : string := "469101596".

(** Truth value of an optional [str]: [None] and the empty string are
    false. *)
Definition truthy (o : option string) : bool :=
  match o with
  | Some (String _ _) => true
  | _ => false
  end.

(** The fields of the request that [get_ga4_report] builds (lines 37 to
    53), once [RunReportRequest] has accepted them; [build_request] below is
    the construction. *)
Definition report_request (start_date end_date : string)
    (dimensions metrics : list string)
    (order_by_metric : option string) (limit : Z) : RunReportRequest :=
  let dimension_objects := map (fun dim => {| dim_name := dim |}) dimensions in
  let metric_objects := map (fun metric => {| met_name := metric |}) metrics in
  let order_by :=
    match order_by_metric with
    | Some name =>
        if truthy order_by_metric
        then Some [ {| ob_metric := {| metric_name := name |}; ob_desc := true |} ]
        else None
    | None => None
    end in
  {| rq_property := "properties/" ++ PROPERTY_ID;
     rq_date_ranges := [ {| start_date := start_date; end_date := end_date |} ];
     rq_dimensions := dimension_objects;
     rq_metrics := metric_objects;
     rq_order_bys := match order_by with Some l => l | None => [] end;
     rq_limit := limit |}.

(** An argument left out of a call is [None]; the signature fills in
    [limit=100000].  [order_by_metric=None] is its own default. *)
Definition limit_default : Z := 100000.

(** The range of an [int64] field. *)
Definition in_int64 (z : Z) : bool :=
  (- 2 ^ 63 <=? z)%Z && (z <? 2 ^ 63)%Z.

(** Lines 37 to 53: the construction of the request.  [RunReportRequest]
    raises when the limit does not fit its field, and no message is
    built. *)
Definition build_request (backend : Backend) (start_date end_date : string)
    (dimensions metrics : list string)
    (order_by_metric : option string) (limit : Z) : result RunReportRequest :=
  if in_int64 limit
  then Ok (report_request start_date end_date dimensions metrics
             order_by_metric limit)
  else Err (limit_refused backend limit).

Definition get_ga4_report (backend : Backend) (start_date end_date : string)
    (dimensions metrics : list string)
    (order_by_metric : option string) (limit : option Z)
  : M PyResponse :=
  let limit := match limit with Some l => l | None => limit_default end in
  try_except
    (_ <- call (from_service_account_file backend KEY_FILE_LOCATION) ;;
     request <- call (build_request backend start_date end_date dimensions
                        metrics order_by_metric limit) ;;
     call (run_report backend request))
    (fun e =>
       logging_error ("GA4レポート取得中にエラーが発生しました: " ++ str_of e) ;;
       raise e).

(** ** [format_response_as_json] *)

(** The dictionary [data] built for one row of a message (lines 71 to 74):
    header names zipped with the row's values, position by position, for the
    dimensions and for the metrics. *)
Definition row_data (response : RunReportResponse) (row : Row) : json :=
  JObj
    [ ("dimensions",
        JObj (PyDict.of_pairs
                (map (fun p => (fst p, JStr (dv_value (snd p))))
                   (combine (map dh_name (dimension_headers response))
                      (dimension_values row)))));
      ("metrics",
        JObj (PyDict.of_pairs
                (map (fun p => (fst p, JStr (mv_value (snd p))))
                   (combine (map mh_name (metric_headers response))
                      (metric_values row))))) ].

(** The list [result] after the loop over the rows of a message. *)
Definition result_list (response : RunReportResponse) : list json :=
  map (row_data response) (rows response).

(** [[h.name for h in headers]]: the attribute is read and iterated, then
    the name of each header is read in turn. *)
Definition names_read (headers : result (list PyHeader))
  : result (list string) :=
  and_then headers (each read_name).

(** [{name: v.value for name, v in pairs}], continued from [d]: for each
    pair in turn the value is read and stored under the name. *)
Fixpoint comprehension (pairs : list (string * PyValue))
    (d : PyDict.t pyvalue) : result (PyDict.t pyvalue) :=
  match pairs with
  | [] => Ok d
  | (name, v) :: rest =>
      and_then (read_value v)
        (fun x => comprehension rest (PyDict.set name x d))
  end.

(** One of the two mappings of a row (line 72 or 73): all the header names
    are read, then the row's values attribute, and then the value of each
    zipped pair.  A value beyond the last header is never read. *)
Definition zipped (headers : result (list PyHeader))
    (values : result (list PyValue)) : result (PyDict.t pyvalue) :=
  and_then (names_read headers)
    (fun names =>
       and_then values
         (fun vals => comprehension (combine names vals) PyDict.empty)).

(** The dictionary [data] of a row (lines 71 to 74): the "dimensions"
    mapping, then the "metrics" mapping. *)
Definition read_row_data (response : PyResponse) (row : PyRow)
  : result (PyDict.t pyvalue * PyDict.t pyvalue) :=
  and_then (zipped (read_dimension_headers response)
              (read_dimension_values row))
    (fun d =>
       and_then (zipped (read_metric_headers response)
                   (read_metric_values row))
         (fun m => Ok (d, m))).

(** Lines 69 to 75: [response.rows] is read and iterated, and [data] is
    built for each row in turn.  The header attributes are read once per
    row, so not at all when there is no row. *)
Definition read_result (response : PyResponse)
  : result (list (PyDict.t pyvalue * PyDict.t pyvalue)) :=
  and_then (read_rows response) (each (read_row_data response)).

(** What [json.dumps] makes of a mapping, of [data] and of [result]: the
    encoder walks the rows in order, the "dimensions" mapping before the
    "metrics" mapping and each mapping in the order of its keys, and
    raises at the first value it cannot serialise. *)
Definition mapping_json (d : PyDict.t pyvalue)
  : result (list (string * json)) :=
  each (fun kv =>
          match snd kv with
          | Text s => Ok (fst kv, JStr s)
          | Unserializable e => Err e
          end) d.

Definition data_json (data : PyDict.t pyvalue * PyDict.t pyvalue)
  : result json :=
  and_then (mapping_json (fst data))
    (fun d =>
       and_then (mapping_json (snd data))
         (fun m => Ok (JObj [ ("dimensions", JObj d); ("metrics", JObj m) ]))).

Definition dumps_result (datas : list (PyDict.t pyvalue * PyDict.t pyvalue))
  : result string :=
  and_then (each data_json datas) (fun js => Ok (json_dumps (JArr js))).

Definition format_response_as_json (response : PyResponse) : M string :=
  try_except
    (datas <- call (read_result response) ;;
     call (dumps_result datas))
    (fun e =>
       logging_error ("JSON形式への変換中にエラーが発生しました: " ++ str_of e) ;;
       raise e).

(** ** [main] *)

Record HttpRequest : Type := {
  req_method : string;
  req_url : string;
  req_headers : list (string * string);
  req_params : list (string * string);
  req_body : string
}.

Record HttpResponse : Type := {
  body : string;
  status_code : Z
}.

Definition outputDocument_set (doc : Document) : M unit :=
  emit (OutputDocumentSet doc).
Definition msg_set (text : string) : M unit := emit (MsgSet text).

(** The report parameters fixed in [main] (lines 99 to 104). *)
Module Params.
Definition start_date : string := "2023-01-01".
Definition end_date : string := "today".
Definition dimensions : list string :=
  ["pagePath"; "pageTitle"; "city"; "country"; "browser";
   "operatingSystem"; "deviceCategory"].
Definition metrics : list string :=
  ["screenPageViews"; "sessions"; "totalUsers"; "newUsers"; "bounceRate";
   "averageSessionDuration"].
Definition order_by_metric : string := "screenPageViews".
Definition limit : Z := 100000.
End Params.

Definition main (backend : Backend) (req : HttpRequest) : M HttpResponse :=
  logging_info "GAのレポート取得情報" ;;
  try_except
    (response <- get_ga4_report backend Params.start_date Params.end_date
                   Params.dimensions Params.metrics
                   (Some Params.order_by_metric) (Some Params.limit) ;;
     results <- format_response_as_json response ;;
     outputDocument_set
       (PyDict.of_pairs [("id", "report"); ("data", results)]) ;;
     msg_set "Report processed" ;;
     ret {| body := results; status_code := 200 |})
    (fun e =>
       logging_error ("エラーが発生しました: " ++ str_of e) ;;
       ret {| body := "エラーが発生しました: " ++ str_of e;
              status_code := 500 |}).

(** ** Vocabulary of the properties *)

(** The two halves of a record, treated alike by the flattening. *)
Inductive field : Type := Dimensions | Metrics.

Definition field_key (f : field) : string :=
  match f with
  | Dimensions => "dimensions"
  | Metrics => "metrics"
  end.

Definition header_names (f : field) (response : RunReportResponse)
  : list string :=
  match f with
  | Dimensions => map dh_name (dimension_headers response)
  | Metrics => map mh_name (metric_headers response)
  end.

Definition row_values (f : field) (row : Row) : list string :=
  match f with
  | Dimensions => map dv_value (dimension_values row)
  | Metrics => map mv_value (metric_values row)
  end.

(** The mapping stored under ["dimensions"] or ["metrics"] in a record. *)
Definition entries (f : field) (record : json) : option (PyDict.t json) :=
  match record with
  | JObj ms =>
      match PyDict.get (field_key f) ms with
      | Some (JObj d) => Some d
      | _ => None
      end
  | _ => None
  end.

(** [{name: value for name, value in zip(names, values)}] on strings. *)
Definition zip_dict (names values : list string) : PyDict.t json :=
  PyDict.of_pairs (map (fun p => (fst p, JStr (snd p))) (combine names values)).

Definition is_log (ev : event) : bool :=
  match ev with
  | Log _ _ => true
  | _ => false
  end.

(** Some row has a value count that differs from the header count. *)
Definition mismatched (response : RunReportResponse) : Prop :=
  exists row f,
    In row (rows response) /\
    length (row_values f row) <> length (header_names f response).

(** The flattening returns [N] records with [M] dimension entries and [K]
    metric entries each. *)
Definition flattens_with_counts (response : RunReportResponse) : Prop :=
  forall tr, exists text records,
    format_response_as_json response tr = (Ok text, tr) /\
    json_loads text = Some (JArr records) /\
    length records = length (rows response) /\
    Forall (fun record => forall f, exists d,
              entries f record = Some d /\
              length d = length (header_names f response)) records.

(** The flattening raises on a response with a mismatched row. *)
Definition raises_on_mismatch (response : RunReportResponse) : Prop :=
  mismatched response ->
  forall tr, exists e tr', format_response_as_json response tr = (Err e, tr').

(** A sort metric that is given becomes the single descending ordering of
    the request, and none given leaves the request without ordering. *)
Definition orders_when_given (order_by_metric : option string) : Prop :=
  forall start_date end_date dimensions metrics limit,
    rq_order_bys
      (report_request start_date end_date dimensions metrics
         order_by_metric limit)
    = match order_by_metric with
      | Some name =>
          [ {| ob_metric := {| metric_name := name |}; ob_desc := true |} ]
      | None => []
      end.

(** ** Sample inputs *)

(** One dimension header, and a row that carries no dimension value. *)
Definition short_row_response : RunReportResponse :=
  {| dimension_headers := [ {| dh_name := "pagePath" |} ];
     metric_headers := [ {| mh_name := "sessions" |} ];
     rows := [ {| dimension_values := [];
                  metric_values := [ {| mv_value := "42" |} ] |} ] |}.

(** One metric header, and a row that carries two metric values. *)
Definition long_row_response : RunReportResponse :=
  {| dimension_headers := [ {| dh_name := "pagePath" |} ];
     metric_headers := [ {| mh_name := "sessions" |} ];
     rows := [ {| dimension_values := [ {| dv_value := "/home" |} ];
                  metric_values := [ {| mv_value := "42" |};
                                     {| mv_value := "7" |} ] |} ] |}.

(** The example of the specification: one header of each kind, one row. *)
Definition home_response : RunReportResponse :=
  {| dimension_headers := [ {| dh_name := "pagePath" |} ];
     metric_headers := [ {| mh_name := "sessions" |} ];
     rows := [ {| dimension_values := [ {| dv_value := "/home" |} ];
                  metric_values := [ {| mv_value := "42" |} ] |} ] |}.

(** Two dimension headers with one name. *)
Definition twin_header_response : RunReportResponse :=
  {| dimension_headers := [ {| dh_name := "city" |}; {| dh_name := "city" |} ];
     metric_headers := [ {| mh_name := "sessions" |} ];
     rows := [ {| dimension_values := [ {| dv_value := "Tokyo" |};
                                        {| dv_value := "Osaka" |} ];
                  metric_values := [ {| mv_value := "42" |} ] |} ] |}.

(** The text of the [ValueError] for a limit out of range, for the sample
    backends. *)
Definition out_of_range (limit : Z) : Exception :=
  {| str_of := "Value out of range" |}.

(** A backend that answers every report with [response]. *)
Definition answering (response : RunReportResponse) : Backend :=
  {| from_service_account_file := fun _ => Ok tt;
     limit_refused := out_of_range;
     run_report := fun _ => Ok (message response) |}.

(** A backend whose key file cannot be read. *)
Definition failing (detail : string) : Backend :=
  {| from_service_account_file := fun _ => Err {| str_of := detail |};
     limit_refused := out_of_range;
     run_report := fun _ => Err {| str_of := detail |} |}.

Definition get_request (params : list (string * string)) : HttpRequest :=
  {| req_method := "GET";
     req_url := "/api/detail";
     req_headers := [];
     req_params := params;
     req_body := "" |}.

(** A text given line by line, and a word between double quotes. *)
Definition join_lines (lines : list string) : string :=
  match lines with
  | [] => ""
  | first :: others =>
      first ++ fold_right (fun line text => newline ++ line ++ text) "" others
  end.

Definition quoted (s : string) : string := quote ++ s ++ quote.

(** The first character of an encoded value. *)
Inductive opens_value : string -> Prop :=
| opens_quote s : opens_value (String dquote s)
| opens_bracket s : opens_value (String "[" s)
| opens_brace s : opens_value (String "{" s).


(** ** Vocabulary of the further properties *)

(** Every character of a text passes a test. *)
Fixpoint all_chars (p : ascii -> bool) (s : string) : bool :=
  match s with
  | EmptyString => true
  | String c s' => p c && all_chars p s'
  end.

(** A character that is neither a control character, nor the double quote,
    nor the backslash. *)
Definition plain_char (c : ascii) : bool :=
  N.leb 32 (ord c) && negb (N.eqb (ord c) 34) && negb (N.eqb (ord c) 92).


(** A row cut down to as many values as the response has headers of each
    kind, and the response with each of its rows cut so. *)
Definition clip_row (response : RunReportResponse) (row : Row) : Row :=
  {| dimension_values :=
       firstn (length (dimension_headers response)) (dimension_values row);
     metric_values :=
       firstn (length (metric_headers response)) (metric_values row) |}.

Definition clip_rows (response : RunReportResponse) : RunReportResponse :=
  {| dimension_headers := dimension_headers response;
     metric_headers := metric_headers response;
     rows := map (clip_row response) (rows response) |}.

(** The record of a row under no header at all. *)
Definition empty_record : json :=
  JObj [ ("dimensions", JObj []); ("metrics", JObj []) ].

(** The request that [main] has run (lines 99 to 107). *)
Definition main_request : RunReportRequest :=
  report_request Params.start_date Params.end_date Params.dimensions
    Params.metrics (Some Params.order_by_metric) Params.limit.

(** Names in Japanese, as the backend reports them for a visit from Tokyo. *)
Definition tokyo_response : RunReportResponse :=
  {| dimension_headers := [ {| dh_name := "city" |}; {| dh_name := "country" |} ];
     metric_headers := [ {| mh_name := "sessions" |} ];
     rows := [ {| dimension_values := [ {| dv_value := "東京" |};
                                        {| dv_value := "日本" |} ];
                  metric_values := [ {| mv_value := "3" |} ] |} ] |}.

(** A backend that reads the key file and then fails to run the report. *)
Definition rejecting (detail : string) : Backend :=
  {| from_service_account_file := fun _ => Ok tt;
     limit_refused := out_of_range;
     run_report := fun _ => Err {| str_of := detail |} |}.

(** An object without the attribute [rows], such as [None]: reading it
    raises. *)
Definition without_rows (detail : string) : PyResponse :=
  {| read_rows := Err {| str_of := detail |};
     read_dimension_headers := Err {| str_of := detail |};
     read_metric_headers := Err {| str_of := detail |} |}.

(** A backend whose client hands back the object [o] for every report. *)
Definition handing_back (o : PyResponse) : Backend :=
  {| from_service_account_file := fun _ => Ok tt;
     limit_refused := out_of_range;
     run_report := fun _ => Ok o |}.

(** A backend interrupted while it runs the report. *)
Definition interrupted (detail : string) : Backend :=
  {| from_service_account_file := fun _ => Ok tt;
     limit_refused := out_of_range;
     run_report := fun _ => Exit {| base_str_of := detail |} |}.

(** * Properties *)

(** ** Dictionaries *)

Module PyDictFacts.
Import PyDict.

Section WithValues.
Context {V : Type}.
Implicit Types (d : t V) (k : string) (v : V) (pairs : list (string * V)).

Lemma of_pairs_store pairs : of_pairs pairs = store pairs empty.
Proof. reflexivity. Qed.

Lemma set_fresh k v d :
  ~ In k (keys d) -> set k v d = (d ++ [(k, v)])%list.
Proof.
  induction d as [|[k' v'] d IH]; simpl; intros Hk; [reflexivity|].
  destruct (String.eqb_spec k k') as [->|Hne].
  - exfalso. apply Hk. now left.
  - rewrite IH; [reflexivity|]. intros Hin. apply Hk. now right.
Qed.

Lemma keys_set_present k v d : In k (keys d) -> keys (set k v d) = keys d.
Proof.
  induction d as [|[k' v'] d IH]; simpl; intros Hk; [contradiction|].
  destruct (String.eqb_spec k k') as [->|Hne]; [reflexivity|].
  simpl. f_equal. apply IH. destruct Hk as [Hk|Hk]; [congruence|exact Hk].
Qed.

Lemma keys_set k v d :
  keys (set k v d) = keys d \/ keys (set k v d) = (keys d ++ [k])%list.
Proof.
  induction d as [|[k' v'] d IH]; simpl; [now right|].
  destruct (String.eqb_spec k k') as [->|Hne]; [now left|].
  simpl. destruct IH as [->| ->]; [now left|now right].
Qed.

Lemma length_set_present k v d :
  In k (keys d) -> length (set k v d) = length d.
Proof.
  intros Hk. apply keys_set_present with (v := v) in Hk.
  apply (f_equal (@length string)) in Hk. unfold keys in Hk.
  now rewrite !length_map in Hk.
Qed.

Lemma length_set_le k v d : length (set k v d) <= S (length d).
Proof.
  induction d as [|[k' v'] d IH]; simpl; [lia|].
  destruct (String.eqb k k'); simpl; lia.
Qed.

Lemma get_set_same k v d : get k (set k v d) = Some v.
Proof.
  induction d as [|[k' v'] d IH]; simpl.
  - now rewrite String.eqb_refl.
  - destruct (String.eqb k k') eqn:E; simpl; rewrite E; [reflexivity|exact IH].
Qed.

Lemma get_set_other k k' v d : k <> k' -> get k (set k' v d) = get k d.
Proof.
  intros Hne. induction d as [|[k0 v0] d IH]; simpl.
  - destruct (String.eqb_spec k k'); [contradiction|reflexivity].
  - destruct (String.eqb_spec k' k0) as [->|Hne']; simpl.
    + destruct (String.eqb_spec k k0); [contradiction|reflexivity].
    + destruct (String.eqb k k0); [reflexivity|exact IH].
Qed.

Lemma get_In k v d : get k d = Some v -> In (k, v) d.
Proof.
  induction d as [|[k' v'] d IH]; simpl; [discriminate|].
  destruct (String.eqb_spec k k') as [->|Hne].
  - intros [= ->]. now left.
  - intros H. right. now apply IH.
Qed.

Lemma store_app p1 p2 d : store (p1 ++ p2) d = store p2 (store p1 d).
Proof. unfold store. apply fold_left_app. Qed.

(** Distinct fresh keys are stored in the order given. *)
Lemma store_distinct pairs : forall d,
  NoDup (keys d ++ map fst pairs) -> store pairs d = (d ++ pairs)%list.
Proof.
  induction pairs as [|[k v] pairs IH]; simpl; intros d Hnd.
  - now rewrite app_nil_r.
  - assert (Hk : ~ In k (keys d)).
    { apply NoDup_remove_2 in Hnd. intros Hin. apply Hnd.
      apply in_or_app. now left. }
    rewrite set_fresh by exact Hk. rewrite IH.
    + now rewrite <- app_assoc.
    + unfold keys in *. rewrite map_app. simpl. now rewrite <- app_assoc.
Qed.

Lemma of_pairs_distinct pairs :
  NoDup (map fst pairs) -> of_pairs pairs = pairs.
Proof. intros Hnd. rewrite of_pairs_store. now apply store_distinct. Qed.

Lemma length_store_le pairs : forall d,
  length (store pairs d) <= length d + length pairs.
Proof.
  induction pairs as [|[k v] pairs IH]; simpl; intros d; [lia|].
  specialize (IH (set k v d)). pose proof (length_set_le k v d). lia.
Qed.

Lemma NoDup_keys_set k v d : NoDup (keys d) -> NoDup (keys (set k v d)).
Proof.
  intros Hnd. destruct (in_dec string_dec k (keys d)) as [Hin|Hout].
  - now rewrite keys_set_present.
  - rewrite set_fresh by exact Hout. unfold keys in *. rewrite map_app.
    simpl. apply NoDup_app; [exact Hnd|repeat constructor; intros []|].
    intros x Hx [<-|[]]; contradiction.
Qed.

Lemma NoDup_keys_store pairs : forall d,
  NoDup (keys d) -> NoDup (keys (store pairs d)).
Proof.
  induction pairs as [|[k v] pairs IH]; simpl; intros d Hnd; [exact Hnd|].
  apply IH. now apply NoDup_keys_set.
Qed.

Lemma NoDup_keys_of_pairs pairs : NoDup (keys (of_pairs pairs)).
Proof. apply NoDup_keys_store. constructor. Qed.

(** A repeated key makes the dictionary shorter than the pair list. *)
Lemma length_store_lt pairs : forall d,
  NoDup (keys d) -> ~ NoDup (keys d ++ map fst pairs) ->
  length (store pairs d) < length d + length pairs.
Proof.
  induction pairs as [|[k v] pairs IH]; simpl; intros d Hd Hnd.
  - exfalso. apply Hnd. now rewrite app_nil_r.
  - destruct (in_dec string_dec k (keys d)) as [Hin|Hout].
    + pose proof (length_store_le pairs (set k v d)) as Hle.
      rewrite length_set_present in Hle by exact Hin. lia.
    + assert (Hlt : length (store pairs (set k v d))
                    < length (set k v d) + length pairs).
      { apply IH; [now apply NoDup_keys_set|].
        rewrite set_fresh by exact Hout. unfold keys in *.
        rewrite map_app. simpl. now rewrite <- app_assoc. }
      pose proof (length_set_le k v d). lia.
Qed.

Lemma length_of_pairs_lt pairs :
  ~ NoDup (map fst pairs) -> length (of_pairs pairs) < length pairs.
Proof.
  intros Hnd. rewrite of_pairs_store.
  apply (length_store_lt pairs empty); [constructor|exact Hnd].
Qed.

Lemma get_store_absent k pairs : forall d,
  ~ In k (map fst pairs) -> get k (store pairs d) = get k d.
Proof.
  induction pairs as [|[k' v'] pairs IH]; simpl; intros d Hk; [reflexivity|].
  rewrite IH by tauto. apply get_set_other. intros ->. tauto.
Qed.

(** Of the pairs with one key, the last one stored is the one kept. *)
Lemma get_of_pairs_last k v p1 p2 :
  ~ In k (map fst p2) -> get k (of_pairs (p1 ++ (k, v) :: p2)) = Some v.
Proof.
  intros Hk. rewrite of_pairs_store, store_app. simpl.
  rewrite get_store_absent by exact Hk. apply get_set_same.
Qed.

(** Every entry of the dictionary is one of the pairs stored. *)
Lemma In_store kv pairs : forall d,
  In kv (store pairs d) -> In kv d \/ In kv pairs.
Proof.
  induction pairs as [|[k v] pairs IH]; simpl; intros d Hin; [now left|].
  apply IH in Hin. destruct Hin as [Hin|Hin]; [|now right; right].
  clear IH. revert Hin. induction d as [|[k' v'] d IHd]; simpl.
  - intros [<-|[]]. right. now left.
  - destruct (String.eqb_spec k k') as [->|Hne]; simpl.
    + intros [<-|Hin]; [right; now left|left; now right].
    + intros [<-|Hin]; [left; now left|].
      destruct (IHd Hin) as [H|H]; [left; now right|now right].
Qed.

Lemma In_of_pairs kv pairs : In kv (of_pairs pairs) -> In kv pairs.
Proof.
  intros Hin. rewrite of_pairs_store in Hin.
  apply In_store in Hin. destruct Hin as [[]|Hin]. exact Hin.
Qed.

End WithValues.
End PyDictFacts.

(** ** Strings *)

Lemma append_assoc (a b c : string) : (a ++ b) ++ c = a ++ (b ++ c).
Proof. induction a as [|x a IH]; simpl; [reflexivity|now rewrite IH]. Qed.

Lemma append_nil_r (a : string) : a ++ "" = a.
Proof. induction a as [|x a IH]; simpl; [reflexivity|now rewrite IH]. Qed.

Lemma length_append (a b : string) :
  String.length (a ++ b) = String.length a + String.length b.
Proof. induction a as [|x a IH]; simpl; [reflexivity|now rewrite IH]. Qed.

Lemma scanstring_escape_char (c : ascii) (r : string) :
  scanstring (escape_char c ++ r) = prepend (String c "") (scanstring r).
Proof.
  destruct c as [[] [] [] [] [] [] [] []]; reflexivity.
Qed.

Lemma scanstring_escape (s r : string) :
  scanstring (escape s ++ quote ++ r) = Some (s, r).
Proof.
  induction s as [|c s IH]; [reflexivity|].
  simpl escape. rewrite append_assoc, scanstring_escape_char, IH.
  reflexivity.
Qed.

Lemma skip_ws_spaces n s : skip_ws (spaces n ++ s) = skip_ws s.
Proof. induction n as [|n IH]; [reflexivity|exact IH]. Qed.

Lemma skip_ws_newline_indent lvl s : skip_ws (newline_indent lvl ++ s) = skip_ws s.
Proof.
  unfold newline_indent. rewrite append_assoc. simpl.
  apply skip_ws_spaces.
Qed.

(** ** Reading back what [json.dumps] wrote *)

Lemma iterencode_opens lvl v r : opens_value (iterencode lvl v ++ r).
Proof.
  destruct v as [s|[|x xs]|[|[k x] ms]]; simpl; constructor.
Qed.

Lemma opens_skip_ws s : opens_value s -> skip_ws s = s.
Proof. now intros []. Qed.

Lemma opens_not_closing s : opens_value s -> starts_with 93 s = None.
Proof. now intros []. Qed.

Lemma iterencode_JStr lvl s r :
  iterencode lvl (JStr s) ++ r = String dquote (escape s ++ quote ++ r).
Proof.
  simpl. unfold py_encode_basestring, quote. simpl. now rewrite append_assoc.
Qed.

Lemma encode_key k r :
  py_encode_basestring k ++ r = String dquote (escape k ++ quote ++ r).
Proof. unfold py_encode_basestring, quote. simpl. now rewrite append_assoc. Qed.

Lemma iterencode_JArr_cons lvl x xs r :
  iterencode lvl (JArr (x :: xs)) ++ r
  = String "[" (newline_indent (S lvl)
      ++ iterencode (S lvl) x
      ++ items_tail lvl xs ++ newline_indent lvl ++ String "]" r).
Proof.
  change (iterencode lvl (JArr (x :: xs)))
    with ("[" ++ newline_indent (S lvl) ++ iterencode (S lvl) x
          ++ items_tail lvl xs ++ newline_indent lvl ++ "]").
  now rewrite !append_assoc.
Qed.

Lemma items_tail_nil lvl r : items_tail lvl [] ++ r = r.
Proof. reflexivity. Qed.

Lemma members_tail_nil lvl r : members_tail lvl [] ++ r = r.
Proof. reflexivity. Qed.

Lemma items_tail_cons lvl y ys r :
  items_tail lvl (y :: ys) ++ r
  = String "," (newline_indent (S lvl)
      ++ iterencode (S lvl) y ++ items_tail lvl ys ++ r).
Proof.
  change (items_tail lvl (y :: ys))
    with ("," ++ newline_indent (S lvl) ++ iterencode (S lvl) y
          ++ items_tail lvl ys).
  now rewrite !append_assoc.
Qed.

Lemma iterencode_JObj_cons lvl k x ms r :
  iterencode lvl (JObj ((k, x) :: ms)) ++ r
  = String "{" (newline_indent (S lvl)
      ++ String dquote (escape k ++ quote
      ++ String ":" (String " " (iterencode (S lvl) x
      ++ members_tail lvl ms ++ newline_indent lvl ++ String "}" r)))).
Proof.
  change (iterencode lvl (JObj ((k, x) :: ms)))
    with ("{" ++ newline_indent (S lvl)
          ++ py_encode_basestring k ++ ": " ++ iterencode (S lvl) x
          ++ members_tail lvl ms ++ newline_indent lvl ++ "}").
  rewrite !append_assoc, encode_key. reflexivity.
Qed.

Lemma members_tail_cons lvl k y ys r :
  members_tail lvl ((k, y) :: ys) ++ r
  = String "," (newline_indent (S lvl)
      ++ String dquote (escape k ++ quote
      ++ String ":" (String " " (iterencode (S lvl) y
      ++ members_tail lvl ys ++ r)))).
Proof.
  change (members_tail lvl ((k, y) :: ys))
    with ("," ++ newline_indent (S lvl)
          ++ py_encode_basestring k ++ ": " ++ iterencode (S lvl) y
          ++ members_tail lvl ys).
  rewrite !append_assoc, encode_key. reflexivity.
Qed.

Lemma weight_JArr l : weight (JArr l) = S (weight_items l).
Proof. reflexivity. Qed.

Lemma weight_JObj ms : weight (JObj ms) = S (weight_members ms).
Proof. reflexivity. Qed.

(** Unfolding of the parser by one unit of fuel. *)
Lemma parse_items_S fuel s :
  parse_items (S fuel) s
  = match parse_value fuel s with
    | None => None
    | Some (v, r) =>
        match starts_with 93 (skip_ws r) with
        | Some r' => Some ([v], r')
        | None =>
            match starts_with 44 (skip_ws r) with
            | None => None
            | Some r' =>
                match parse_items fuel (skip_ws r') with
                | Some (l, r'') => Some (v :: l, r'')
                | None => None
                end
            end
        end
    end.
Proof. reflexivity. Qed.

Lemma parse_members_S fuel s :
  parse_members (S fuel) s
  = match scanstring s with
    | None => None
    | Some (k, r) =>
        match starts_with 58 (skip_ws r) with
        | None => None
        | Some r1 =>
            match parse_value fuel (skip_ws r1) with
            | None => None
            | Some (v, r2) =>
                match starts_with 125 (skip_ws r2) with
                | Some r' => Some ([(k, v)], r')
                | None =>
                    match starts_with 44 (skip_ws r2) with
                    | None => None
                    | Some r3 =>
                        match starts_with 34 (skip_ws r3) with
                        | None => None
                        | Some r4 =>
                            match parse_members fuel r4 with
                            | Some (ms, r') => Some ((k, v) :: ms, r')
                            | None => None
                            end
                        end
                    end
                end
            end
        end
    end.
Proof. reflexivity. Qed.

Lemma parse_value_string fuel s :
  parse_value (S fuel) (String dquote s)
  = match scanstring s with
    | Some (str, r) => Some (JStr str, r)
    | None => None
    end.
Proof. reflexivity. Qed.

Lemma parse_value_array fuel s :
  parse_value (S fuel) (String "[" s)
  = match starts_with 93 (skip_ws s) with
    | Some r => Some (JArr [], r)
    | None =>
        match parse_items fuel (skip_ws s) with
        | Some (l, r) => Some (JArr l, r)
        | None => None
        end
    end.
Proof. reflexivity. Qed.

Lemma parse_value_object fuel s :
  parse_value (S fuel) (String "{" s)
  = match starts_with 125 (skip_ws s) with
    | Some r => Some (JObj PyDict.empty, r)
    | None =>
        match starts_with 34 (skip_ws s) with
        | Some r =>
            match parse_members fuel r with
            | Some (ms, r') => Some (JObj (PyDict.of_pairs ms), r')
            | None => None
            end
        | None => None
        end
    end.
Proof. reflexivity. Qed.

Lemma comma_not_closing s : starts_with 93 (skip_ws (String "," s)) = None.
Proof. reflexivity. Qed.

Lemma comma_not_brace s : starts_with 125 (skip_ws (String "," s)) = None.
Proof. reflexivity. Qed.

Lemma comma_next s : starts_with 44 (skip_ws (String "," s)) = Some s.
Proof. reflexivity. Qed.

Lemma colon_next s :
  starts_with 58 (skip_ws (String ":" (String " " s))) = Some (String " " s).
Proof. reflexivity. Qed.

Lemma skip_ws_space s : skip_ws (String " " s) = skip_ws s.
Proof. reflexivity. Qed.

Lemma quote_next s : starts_with 34 (skip_ws (String dquote s)) = Some s.
Proof. reflexivity. Qed.

Lemma quote_not_brace s : starts_with 125 (skip_ws (String dquote s)) = None.
Proof. reflexivity. Qed.

Lemma closing_next s : starts_with 93 (skip_ws (String "]" s)) = Some s.
Proof. reflexivity. Qed.

Lemma brace_next s : starts_with 125 (skip_ws (String "}" s)) = Some s.
Proof. reflexivity. Qed.

  (** Reading back the elements of a list, given that each element reads
    back. *)
Lemma parse_items_encoded lvl xs : forall x fuel r,
  Forall (fun v => forall lvl fuel r,
            weight v <= fuel ->
            parse_value fuel (iterencode lvl v ++ r) = Some (v, r))
    (x :: xs) ->
  weight_items (x :: xs) <= fuel ->
  parse_items fuel
    (iterencode (S lvl) x ++ items_tail lvl xs
     ++ newline_indent lvl ++ String "]" r)
  = Some (x :: xs, r).
Proof.
  induction xs as [|y ys IH]; intros x fuel r Hall Hfuel;
    inversion Hall as [|? ? Hx Hxs]; subst;
    (destruct fuel as [|fuel]; [simpl in Hfuel; lia|]);
    rewrite parse_items_S, Hx by (simpl in Hfuel; lia).
  - rewrite items_tail_nil, skip_ws_newline_indent, closing_next.
    reflexivity.
  - rewrite items_tail_cons, comma_not_closing, comma_next.
    rewrite skip_ws_newline_indent, opens_skip_ws by apply iterencode_opens.
    rewrite IH; [reflexivity|exact Hxs|simpl in *; lia].
Qed.

Lemma parse_members_encoded lvl ms : forall k x fuel r,
  Forall (fun kv => forall lvl fuel r,
            weight (snd kv) <= fuel ->
            parse_value fuel (iterencode lvl (snd kv) ++ r)
            = Some (snd kv, r))
    ((k, x) :: ms) ->
  weight_members ((k, x) :: ms) <= fuel ->
  parse_members fuel
    (escape k ++ quote
     ++ String ":" (String " " (iterencode (S lvl) x
     ++ members_tail lvl ms ++ newline_indent lvl ++ String "}" r)))
  = Some ((k, x) :: ms, r).
Proof.
  induction ms as [|[k' y] ys IH]; intros k x fuel r Hall Hfuel;
    inversion Hall as [|? ? Hx Hxs]; subst; simpl in Hx;
    (destruct fuel as [|fuel]; [simpl in Hfuel; lia|]);
    rewrite parse_members_S, scanstring_escape, colon_next, skip_ws_space;
    rewrite opens_skip_ws by apply iterencode_opens;
    rewrite Hx by (simpl in Hfuel; lia).
  - rewrite members_tail_nil, skip_ws_newline_indent, brace_next.
    reflexivity.
  - rewrite members_tail_cons, comma_not_brace, comma_next.
    rewrite skip_ws_newline_indent, quote_next.
    rewrite IH; [reflexivity|exact Hxs|simpl in *; lia].
Qed.

(** Every value the program can build reads back from its encoding, at any
    nesting level and before any remaining text. *)
Lemma parse_value_iterencode v :
  wf_json v -> forall lvl fuel r,
  weight v <= fuel ->
  parse_value fuel (iterencode lvl v ++ r) = Some (v, r).
Proof.
  induction v as [s|l IH|ms IH] using json_ind; intros Hwf lvl fuel r Hfuel;
    (destruct fuel as [|fuel]; [simpl in Hfuel; lia|]).
  - rewrite iterencode_JStr, parse_value_string, scanstring_escape.
    reflexivity.
  - inversion Hwf as [|? Hall|]; subst.
    destruct l as [|x xs]; [reflexivity|].
    rewrite iterencode_JArr_cons, parse_value_array, skip_ws_newline_indent.
    rewrite opens_skip_ws, opens_not_closing by apply iterencode_opens.
    rewrite parse_items_encoded; [reflexivity| |rewrite weight_JArr in Hfuel; lia].
    rewrite Forall_forall in *. intros v Hv. now apply IH; [|apply Hall].
  - inversion Hwf as [| |? Hnd Hall]; subst.
    destruct ms as [|[k x] ms]; [reflexivity|].
    rewrite iterencode_JObj_cons, parse_value_object, skip_ws_newline_indent.
    rewrite quote_not_brace, quote_next.
    rewrite parse_members_encoded;
      [|rewrite Forall_forall in *; intros kv Hkv; now apply IH; [|apply Hall]
       |rewrite weight_JObj in Hfuel; lia].
    now rewrite PyDictFacts.of_pairs_distinct.
Qed.

Lemma weight_items_cons x l :
  weight_items (x :: l) = S (weight x + weight_items l).
Proof. reflexivity. Qed.

Lemma weight_members_cons k x l :
  weight_members ((k, x) :: l) = S (weight x + weight_members l).
Proof. reflexivity. Qed.

Ltac lengths :=
  repeat first [rewrite length_append | progress simpl String.length].

Lemma weight_items_le lvl l :
  Forall (fun v => forall lvl, weight v <= String.length (iterencode lvl v)) l ->
  weight_items l <= String.length (items_tail lvl l).
Proof.
  induction 1 as [|y ys Hy _ IH]; [simpl; lia|].
  rewrite <- (append_nil_r (items_tail lvl (y :: ys))), items_tail_cons.
  rewrite weight_items_cons. lengths. specialize (Hy (S lvl)). lia.
Qed.

Lemma weight_members_le lvl l :
  Forall (fun kv => forall lvl,
            weight (snd kv) <= String.length (iterencode lvl (snd kv))) l ->
  weight_members l <= String.length (members_tail lvl l).
Proof.
  induction 1 as [|[k y] ys Hy _ IH]; [simpl; lia|].
  rewrite <- (append_nil_r (members_tail lvl ((k, y) :: ys))), members_tail_cons.
  rewrite weight_members_cons. lengths. specialize (Hy (S lvl)). simpl in Hy.
  lia.
Qed.

Lemma weight_le_length v : forall lvl,
  weight v <= String.length (iterencode lvl v).
Proof.
  induction v as [s|l IH|ms IH] using json_ind; intros lvl.
  - simpl. unfold py_encode_basestring, quote. simpl. lia.
  - destruct l as [|x xs]; [simpl; lia|].
    inversion IH as [|? ? Hx Hxs]; subst.
    rewrite <- (append_nil_r (iterencode lvl (JArr (x :: xs)))).
    rewrite iterencode_JArr_cons, weight_JArr, weight_items_cons.
    lengths. pose proof (weight_items_le lvl xs Hxs). specialize (Hx (S lvl)).
    lia.
  - destruct ms as [|[k x] ms]; [simpl; lia|].
    inversion IH as [|? ? Hx Hxs]; subst.
    rewrite <- (append_nil_r (iterencode lvl (JObj ((k, x) :: ms)))).
    rewrite iterencode_JObj_cons, weight_JObj, weight_members_cons.
    lengths. pose proof (weight_members_le lvl ms Hxs). specialize (Hx (S lvl)).
    simpl in Hx. lia.
Qed.

(** [json.loads(json.dumps(v, indent=4, ensure_ascii=False)) == v]. *)
Lemma json_loads_dumps v : wf_json v -> json_loads (json_dumps v) = Some v.
Proof.
  intros Hwf. unfold json_loads, json_dumps.
  rewrite <- (append_nil_r (iterencode 0 v)) at 2.
  rewrite opens_skip_ws by apply iterencode_opens.
  rewrite parse_value_iterencode; [reflexivity|exact Hwf|].
  pose proof (weight_le_length v 0). lia.
Qed.

(** ** Zipping header names with values *)

Lemma zip_map_values {V} (g : V -> string) (names : list string)
    (values : list V) :
  map (fun p => (fst p, JStr (g (snd p)))) (combine names values)
  = map (fun p => (fst p, JStr (snd p))) (combine names (map g values)).
Proof.
  revert values. induction names as [|n names IH]; intros [|v values];
    simpl; try reflexivity.
  now rewrite IH.
Qed.

Lemma nth_error_combine {A B} (l1 : list A) (l2 : list B) : forall n,
  nth_error (combine l1 l2) n
  = match nth_error l1 n, nth_error l2 n with
    | Some a, Some b => Some (a, b)
    | _, _ => None
    end.
Proof.
  revert l2. induction l1 as [|a l1 IH]; intros [|b l2] [|n]; simpl;
    try reflexivity.
  - now destruct (nth_error l1 n).
  - apply IH.
Qed.

Lemma zip_keys names values :
  map fst (map (fun p : string * string => (fst p, JStr (snd p)))
             (combine names values))
  = firstn (length values) names.
Proof.
  revert values. induction names as [|n names IH]; intros [|v values];
    simpl; try reflexivity.
  now rewrite IH.
Qed.

Lemma length_zip_pairs names values :
  length (map (fun p : string * string => (fst p, JStr (snd p)))
            (combine names values))
  = Nat.min (length names) (length values).
Proof. now rewrite length_map, length_combine. Qed.

(** The comprehension never has more entries than positions zipped. *)
Lemma length_zip_dict_le names values :
  length (zip_dict names values) <= Nat.min (length names) (length values).
Proof.
  unfold zip_dict, PyDict.of_pairs.
  pose proof (PyDictFacts.length_store_le
                (map (fun p : string * string => (fst p, JStr (snd p)))
                   (combine names values)) PyDict.empty) as H.
  rewrite length_zip_pairs in H. exact H.
Qed.

(** With distinct names and a value for each, every name gets its entry. *)
Lemma zip_dict_aligned names values :
  NoDup names -> length names <= length values ->
  zip_dict names values
  = map (fun p => (fst p, JStr (snd p))) (combine names values).
Proof.
  intros Hnd Hlen. unfold zip_dict. apply PyDictFacts.of_pairs_distinct.
  rewrite zip_keys, firstn_all2 by exact Hlen. exact Hnd.
Qed.

Lemma length_zip_dict_aligned names values :
  NoDup names -> length names <= length values ->
  length (zip_dict names values) = length names.
Proof.
  intros Hnd Hlen. rewrite zip_dict_aligned, length_zip_pairs by assumption.
  lia.
Qed.

(** An entry of the comprehension is a name and the value at one position. *)
Lemma zip_dict_entry names values k x :
  In (k, x) (zip_dict names values) ->
  exists j v,
    nth_error names j = Some k /\ nth_error values j = Some v /\ x = JStr v.
Proof.
  intros Hin. apply PyDictFacts.In_of_pairs in Hin.
  apply in_map_iff in Hin. destruct Hin as ([k' v] & [= <- <-] & Hin).
  apply In_nth_error in Hin. destruct Hin as [j Hj].
  rewrite nth_error_combine in Hj. exists j, v.
  destruct (nth_error names j), (nth_error values j); try discriminate.
  injection Hj as -> ->. auto.
Qed.

(** A name at two positions: one entry, holding the value of the last. *)
Lemma zip_dict_repeated names values i j k v :
  i < j ->
  nth_error names i = Some k -> nth_error names j = Some k ->
  nth_error values j = Some v ->
  (forall j', j < j' -> j' < length values -> nth_error names j' <> Some k) ->
  PyDict.get k (zip_dict names values) = Some (JStr v)
  /\ length (zip_dict names values) < length names.
Proof.
  intros Hij Hi Hj Hv Hlast.
  assert (Hjlen : j < length values) by (apply nth_error_Some; congruence).
  assert (Hjnames : j < length names) by (apply nth_error_Some; congruence).
  set (f := fun p : string * string => (fst p, JStr (snd p))).
  assert (Hnth : forall n a b,
             nth_error names n = Some a -> nth_error values n = Some b ->
             nth_error (combine names values) n = Some (a, b)).
  { intros n a b Ha Hb. now rewrite nth_error_combine, Ha, Hb. }
  split.
  - destruct (nth_error_split _ _ (Hnth j k v Hj Hv)) as (p1 & p2 & Hsplit & Hp1).
    unfold zip_dict. fold f. rewrite Hsplit, map_app. simpl.
    change (f (k, v)) with (k, JStr v).
    apply PyDictFacts.get_of_pairs_last.
    rewrite map_map. intros Hin. apply in_map_iff in Hin.
    destruct Hin as ([k' v'] & Hk & Hin). simpl in Hk. subst k'.
    apply In_nth_error in Hin. destruct Hin as [n Hn].
    assert (Hpos : nth_error (combine names values) (j + S n) = Some (k, v')).
    { rewrite Hsplit, nth_error_app2 by lia.
      replace (j + S n - length p1) with (S n) by lia. exact Hn. }
    rewrite nth_error_combine in Hpos.
    destruct (nth_error names (j + S n)) as [a|] eqn:Ea; [|discriminate].
    destruct (nth_error values (j + S n)) as [b|] eqn:Eb; [|discriminate].
    injection Hpos as -> ->.
    apply (Hlast (j + S n)); [lia| |exact Ea].
    apply nth_error_Some. congruence.
  - assert (Hlt : length (zip_dict names values)
                  < length (map f (combine names values))).
    { apply PyDictFacts.length_of_pairs_lt. intros Hnd.
      rewrite NoDup_nth_error in Hnd.
      assert (Hsame : i = j); [|lia].
      apply Hnd.
      - unfold f. rewrite zip_keys, length_firstn. lia.
      - unfold f. rewrite zip_keys, !nth_error_firstn.
        destruct (Nat.ltb_spec i (length values)); [|lia].
        destruct (Nat.ltb_spec j (length values)); [|lia].
        congruence. }
    unfold f in Hlt. rewrite length_zip_pairs in Hlt. lia.
Qed.

(** ** The flattening *)

Lemma row_data_zip response row :
  row_data response row
  = JObj [ ("dimensions",
             JObj (zip_dict (header_names Dimensions response)
                     (row_values Dimensions row)));
           ("metrics",
             JObj (zip_dict (header_names Metrics response)
                     (row_values Metrics row))) ].
Proof.
  unfold row_data, zip_dict. simpl. now rewrite !zip_map_values.
Qed.

Lemma entries_row_data f response row :
  entries f (row_data response row)
  = Some (zip_dict (header_names f response) (row_values f row)).
Proof. rewrite row_data_zip. now destruct f. Qed.

Lemma wf_zip_dict names values : wf_json (JObj (zip_dict names values)).
Proof.
  constructor.
  - apply PyDictFacts.NoDup_keys_of_pairs.
  - apply Forall_forall. intros [k x] Hin.
    apply zip_dict_entry in Hin. destruct Hin as (j & v & _ & _ & ->).
    constructor.
Qed.

Lemma wf_row_data response row : wf_json (row_data response row).
Proof.
  rewrite row_data_zip. constructor.
  - simpl. constructor; [simpl; intuition discriminate|].
    constructor; [simpl; tauto|constructor].
  - constructor; [apply wf_zip_dict|].
    constructor; [apply wf_zip_dict|constructor].
Qed.

Lemma wf_result_list response : wf_json (JArr (result_list response)).
Proof.
  constructor. apply Forall_forall. intros v Hin.
  apply in_map_iff in Hin. destruct Hin as (row & <- & _).
  apply wf_row_data.
Qed.

(** *** A message is read without failure *)

Lemma each_map {A B C} (f : B -> result C) (h : A -> B) (l : list A) :
  each f (map h l) = each (fun x => f (h x)) l.
Proof.
  induction l as [|x l IH]; simpl; [reflexivity|]. now rewrite IH.
Qed.

Lemma each_returns {A B} (f : A -> result B) (g : A -> B) (l : list A) :
  (forall x, In x l -> f x = Ok (g x)) -> each f l = Ok (map g l).
Proof.
  induction l as [|x l IH]; simpl; intros H; [reflexivity|].
  rewrite (H x) by now left. simpl. rewrite IH by auto. reflexivity.
Qed.

Lemma map_values_set {V W} (h : V -> W) k v (d : PyDict.t V) :
  map (fun kv => (fst kv, h (snd kv))) (PyDict.set k v d)
  = PyDict.set k (h v) (map (fun kv => (fst kv, h (snd kv))) d).
Proof.
  induction d as [|[k' v'] d IH]; simpl; [reflexivity|].
  destruct (String.eqb k k'); simpl; [reflexivity|now rewrite IH].
Qed.

Lemma map_values_store {V W} (h : V -> W) (pairs : list (string * V)) :
  forall d : PyDict.t V,
  map (fun kv => (fst kv, h (snd kv))) (PyDict.store pairs d)
  = PyDict.store (map (fun kv => (fst kv, h (snd kv))) pairs)
      (map (fun kv => (fst kv, h (snd kv))) d).
Proof.
  unfold PyDict.store.
  induction pairs as [|[k v] pairs IH]; intros d; simpl; [reflexivity|].
  now rewrite IH, map_values_set.
Qed.

(** The comprehension over values that are all read as text. *)
Lemma comprehension_of_texts {V} (g : V -> string) (names : list string)
    (values : list V) : forall d,
  comprehension
    (combine names (map (fun v => {| read_value := Ok (Text (g v)) |}) values))
    d
  = Ok (PyDict.store
          (map (fun p => (fst p, Text (g (snd p)))) (combine names values)) d).
Proof.
  revert values. induction names as [|n names IH]; intros [|v values] d;
    simpl; try reflexivity.
  apply IH.
Qed.

Lemma mapping_json_of_texts (d : PyDict.t string) :
  mapping_json (map (fun kv => (fst kv, Text (snd kv))) d)
  = Ok (map (fun kv => (fst kv, JStr (snd kv))) d).
Proof.
  unfold mapping_json. rewrite each_map.
  apply (each_returns _ (fun kv => (fst kv, JStr (snd kv)))). reflexivity.
Qed.

Lemma zipped_of_texts {H V} (name : H -> string) (g : V -> string)
    (headers : list H) (values : list V) :
  zipped (Ok (map (fun h => {| read_name := Ok (name h) |}) headers))
    (Ok (map (fun v => {| read_value := Ok (Text (g v)) |}) values))
  = Ok (map (fun kv => (fst kv, Text (snd kv)))
          (PyDict.of_pairs
             (map (fun p => (fst p, g (snd p)))
                (combine (map name headers) values)))).
Proof.
  unfold zipped, names_read. simpl. rewrite each_map.
  rewrite (each_returns _ name) by reflexivity. simpl.
  rewrite comprehension_of_texts. f_equal.
  unfold PyDict.of_pairs. rewrite map_values_store, map_map. reflexivity.
Qed.

Lemma mapping_json_of_strings {V} (g : V -> string)
    (pairs : list (string * V)) :
  mapping_json
    (map (fun kv => (fst kv, Text (snd kv)))
       (PyDict.of_pairs (map (fun p => (fst p, g (snd p))) pairs)))
  = Ok (PyDict.of_pairs (map (fun p => (fst p, JStr (g (snd p)))) pairs)).
Proof.
  rewrite mapping_json_of_texts. f_equal.
  unfold PyDict.of_pairs. rewrite map_values_store, map_map. reflexivity.
Qed.

Lemma read_row_data_of_message (response : RunReportResponse) (row : Row) :
  read_row_data response (row_object row) = Ok (message_data response row).
Proof.
  unfold read_row_data, message, row_object, message_data. simpl.
  now rewrite !zipped_of_texts.
Qed.

Lemma data_json_of_message (response : RunReportResponse) (row : Row) :
  data_json (message_data response row) = Ok (row_data response row).
Proof.
  unfold data_json, message_data. simpl.
  now rewrite !mapping_json_of_strings.
Qed.

Lemma read_result_of_message (response : RunReportResponse) :
  read_result response = Ok (map (message_data response) (rows response)).
Proof.
  unfold read_result.
  change (read_rows response) with (Ok (map row_object (rows response))).
  simpl. rewrite each_map. apply each_returns.
  intros row _. apply read_row_data_of_message.
Qed.

Lemma dumps_result_of_message (response : RunReportResponse) :
  dumps_result (map (message_data response) (rows response))
  = Ok (json_dumps (JArr (result_list response))).
Proof.
  unfold dumps_result. rewrite each_map.
  rewrite (each_returns _ (row_data response))
    by (intros row _; apply data_json_of_message).
  reflexivity.
Qed.

(** On a message the conversion never takes its [except] branch: it returns
    the rendered list and logs nothing. *)
Lemma format_response_as_json_returns (response : RunReportResponse) tr :
  format_response_as_json response tr
  = (Ok (json_dumps (JArr (result_list response))), tr).
Proof.
  unfold format_response_as_json, try_except, bind, call.
  now rewrite read_result_of_message, dumps_result_of_message.
Qed.

Lemma format_response_as_json_reads_back (response : RunReportResponse) tr :
  exists text,
    format_response_as_json response tr = (Ok text, tr) /\
    json_loads text = Some (JArr (result_list response)) /\
    json_dumps (JArr (result_list response)) = text.
Proof.
  eexists. split; [apply format_response_as_json_returns|].
  split; [apply json_loads_dumps, wf_result_list|reflexivity].
Qed.

(** The text for one row under one header of each kind, as rendered with
    an indent of four. *)
Example home_response_text :
  format_response_as_json home_response []
  = (Ok (join_lines
           [ "[";
             "    {";
             "        " ++ quoted "dimensions" ++ ": {";
             "            " ++ quoted "pagePath" ++ ": " ++ quoted "/home";
             "        },";
             "        " ++ quoted "metrics" ++ ": {";
             "            " ++ quoted "sessions" ++ ": " ++ quoted "42";
             "        }";
             "    }";
             "]" ]), []).
Proof. reflexivity. Qed.

Example home_response_records :
  json_loads (json_dumps (JArr (result_list home_response)))
  = Some (JArr [ JObj [ ("dimensions", JObj [ ("pagePath", JStr "/home") ]);
                        ("metrics", JObj [ ("sessions", JStr "42") ]) ] ]).
Proof. reflexivity. Qed.

Example twin_header_records :
  json_loads (json_dumps (JArr (result_list twin_header_response)))
  = Some (JArr [ JObj [ ("dimensions", JObj [ ("city", JStr "Osaka") ]);
                        ("metrics", JObj [ ("sessions", JStr "42") ]) ] ]).
Proof. reflexivity. Qed.

(** Control characters are written as [\u] escapes, and read back. *)
Example bell_is_escaped :
  escape (String (chr 7) "a\b") = "\u0007a\\b"
  /\ scanstring ("\u0007a\\b" ++ quote) = Some (String (chr 7) "a\b", "").
Proof. split; reflexivity. Qed.

(** C1 as stated fails: a row without dimension values yields a record
    without dimension entries, under one dimension header. *)
Lemma short_row_breaks_counts : ~ flattens_with_counts short_row_response.
Proof.
  intros H. destruct (H []) as (text & records & Hret & Hload & _ & Hall).
  rewrite format_response_as_json_returns in Hret.
  injection Hret as <-. vm_compute in Hload. injection Hload as <-.
  inversion Hall as [|? ? Hrec _]; subst.
  destruct (Hrec Dimensions) as (d & Hd & Hlen).
  vm_compute in Hd. injection Hd as <-. discriminate Hlen.
Qed.

(** C1, amended: when the header names of each kind are distinct and every
    row carries at least as many values as there are headers of each kind,
    the text returned holds one record per row, each with one dimension
    entry per dimension header and one metric entry per metric header. *)
Theorem flatten_counts_aligned (response : RunReportResponse) :
  (forall f, NoDup (header_names f response)) ->
  (forall row f, In row (rows response) ->
                 length (header_names f response) <= length (row_values f row)) ->
  flattens_with_counts response.
Proof.
  intros Hnd Hlen tr.
  destruct (format_response_as_json_reads_back response tr)
    as (text & Hret & Hload & _).
  exists text, (result_list response). repeat split; try assumption.
  - apply length_map.
  - apply Forall_forall. intros record Hin f.
    apply in_map_iff in Hin. destruct Hin as (row & <- & Hrow).
    eexists. split; [apply entries_row_data|].
    apply length_zip_dict_aligned; [apply Hnd|now apply Hlen].
Qed.

Lemma flatten_counts_aligned_witness : flattens_with_counts home_response.
Proof.
  apply flatten_counts_aligned.
  - intros []; simpl; repeat constructor; intros [].
  - intros row f [<-|[]]. destruct f; simpl; lia.
Defined.

(** C2 as stated fails: a row with a surplus metric value raises nothing. *)
Lemma long_row_does_not_raise : ~ raises_on_mismatch long_row_response.
Proof.
  intros H.
  destruct (H (ex_intro _ _ (ex_intro _ Metrics (conj (or_introl eq_refl)
                (fun E => Nat.neq_succ_diag_l 1 E)))) [])
    as (e & tr' & Hraise).
  discriminate Hraise.
Qed.

(** C2, amended: on a response with a mismatched row the conversion raises
    nothing and logs nothing; it returns the text of one record per row, and
    the entries of a record are names and values of equal positions, at most
    as many as the shorter of the header list and the row's value list. *)
Theorem mismatch_is_truncated (response : RunReportResponse) :
  mismatched response ->
  forall tr, exists text records,
    format_response_as_json response tr = (Ok text, tr) /\
    json_loads text = Some (JArr records) /\
    length records = length (rows response) /\
    forall i row f, nth_error (rows response) i = Some row ->
      exists record d,
        nth_error records i = Some record /\
        entries f record = Some d /\
        length d
        <= Nat.min (length (header_names f response))
             (length (row_values f row)) /\
        forall k x, In (k, x) d ->
          exists j v, nth_error (header_names f response) j = Some k /\
                      nth_error (row_values f row) j = Some v /\
                      x = JStr v.
Proof.
  intros _ tr.
  destruct (format_response_as_json_reads_back response tr)
    as (text & Hret & Hload & _).
  exists text, (result_list response). repeat split; try assumption.
  - apply length_map.
  - intros i row f Hrow.
    exists (row_data response row),
      (zip_dict (header_names f response) (row_values f row)).
    repeat split.
    + unfold result_list. now rewrite nth_error_map, Hrow.
    + apply entries_row_data.
    + apply length_zip_dict_le.
    + intros k x. apply zip_dict_entry.
Qed.

Lemma mismatch_is_truncated_witness :
  mismatched short_row_response /\
  exists text, format_response_as_json short_row_response [] = (Ok text, []).
Proof.
  assert (Hmis : mismatched short_row_response).
  { exists {| dimension_values := [];
              metric_values := [ {| mv_value := "42" |} ] |}, Dimensions.
    split; [now left|simpl; lia]. }
  split; [exact Hmis|].
  destruct (mismatch_is_truncated short_row_response Hmis [])
    as (text & records & Hret & _).
  now exists text.
Defined.

(** C3: the records of the text returned follow the rows of the response:
    the record at each position is the one built from the row at that
    position, and there is no record beyond the last row. *)
Theorem records_follow_rows (response : RunReportResponse) (tr : trace) :
  exists text records,
    format_response_as_json response tr = (Ok text, tr) /\
    json_loads text = Some (JArr records) /\
    forall i,
      nth_error records i
      = option_map (row_data response) (nth_error (rows response) i).
Proof.
  destruct (format_response_as_json_reads_back response tr)
    as (text & Hret & Hload & _).
  exists text, (result_list response). repeat split; try assumption.
  intros i. unfold result_list. apply nth_error_map.
Qed.

(** C4: the text returned reads back as a value whose rendering is that same
    text, and every entry of every record is a JSON string holding, as it
    came, the value the row has at the position of the entry's header. *)
Theorem output_round_trips (response : RunReportResponse) (tr : trace) :
  exists text records,
    format_response_as_json response tr = (Ok text, tr) /\
    json_loads text = Some (JArr records) /\
    json_dumps (JArr records) = text /\
    json_loads (json_dumps (JArr records)) = Some (JArr records) /\
    forall i row f, nth_error (rows response) i = Some row ->
      exists record d,
        nth_error records i = Some record /\
        entries f record = Some d /\
        forall k x, In (k, x) d ->
          exists j v, nth_error (header_names f response) j = Some k /\
                      nth_error (row_values f row) j = Some v /\
                      x = JStr v.
Proof.
  destruct (format_response_as_json_reads_back response tr)
    as (text & Hret & Hload & Hdump).
  exists text, (result_list response). repeat split; try assumption.
  - now rewrite Hdump.
  - intros i row f Hrow.
    exists (row_data response row),
      (zip_dict (header_names f response) (row_values f row)).
    repeat split.
    + unfold result_list. now rewrite nth_error_map, Hrow.
    + apply entries_row_data.
    + intros k x. apply zip_dict_entry.
Qed.

(** C5: a response without rows gives the text of the empty array, whatever
    its headers, and nothing is raised or logged. *)
Theorem no_rows_gives_empty_array (response : RunReportResponse) (tr : trace) :
  rows response = [] ->
  format_response_as_json response tr = (Ok "[]", tr)
  /\ json_loads "[]" = Some (JArr []).
Proof.
  intros Hrows. rewrite format_response_as_json_returns.
  unfold result_list. rewrite Hrows. split; reflexivity.
Qed.

Lemma no_rows_gives_empty_array_witness :
  format_response_as_json
    {| dimension_headers := [ {| dh_name := "pagePath" |} ];
       metric_headers := [];
       rows := [] |} []
  = (Ok "[]", [])
  /\ json_loads "[]" = Some (JArr []).
Proof.
  apply (no_rows_gives_empty_array
           {| dimension_headers := [ {| dh_name := "pagePath" |} ];
              metric_headers := [];
              rows := [] |} []).
  reflexivity.
Defined.

(** C10: when a header name stands at two positions of a header list and
    the row has a value at the later one, the conversion still returns; the
    row's record holds one entry for that name, with the value at the last
    position that carries the name, and has fewer entries than there are
    headers. *)
Theorem repeated_header_collapses (response : RunReportResponse) (row : Row)
    (f : field) (n i j : nat) (name v : string) (tr : trace) :
  nth_error (rows response) n = Some row ->
  i < j ->
  nth_error (header_names f response) i = Some name ->
  nth_error (header_names f response) j = Some name ->
  nth_error (row_values f row) j = Some v ->
  (forall j', j < j' -> j' < length (row_values f row) ->
              nth_error (header_names f response) j' <> Some name) ->
  exists text records record d,
    format_response_as_json response tr = (Ok text, tr) /\
    json_loads text = Some (JArr records) /\
    nth_error records n = Some record /\
    entries f record = Some d /\
    PyDict.get name d = Some (JStr v) /\
    length d < length (header_names f response).
Proof.
  intros Hrow Hij Hi Hj Hv Hlast.
  destruct (format_response_as_json_reads_back response tr)
    as (text & Hret & Hload & _).
  destruct (zip_dict_repeated _ _ i j name v Hij Hi Hj Hv Hlast) as [Hget Hlen].
  exists text, (result_list response), (row_data response row),
    (zip_dict (header_names f response) (row_values f row)).
  repeat split; try assumption.
  - unfold result_list. now rewrite nth_error_map, Hrow.
  - apply entries_row_data.
Qed.

Lemma repeated_header_collapses_witness :
  exists text records record d,
    format_response_as_json twin_header_response [] = (Ok text, []) /\
    json_loads text = Some (JArr records) /\
    nth_error records 0 = Some record /\
    entries Dimensions record = Some d /\
    PyDict.get "city" d = Some (JStr "Osaka") /\
    length d < length (header_names Dimensions twin_header_response).
Proof.
  apply (repeated_header_collapses twin_header_response
           {| dimension_values := [ {| dv_value := "Tokyo" |};
                                    {| dv_value := "Osaka" |} ];
              metric_values := [ {| mv_value := "42" |} ] |}
           Dimensions 0 0 1 "city" "Osaka" []);
    try reflexivity; [lia|].
  intros j' Hlo Hhi. simpl in Hhi. lia.
Defined.

(** ** The report request *)

(** What a call of [get_ga4_report] comes to: the key file is read, the
    request is built, the request is run.  An [Exception] at any of the
    three is logged and raised again; a [BaseException] of the other kind
    passes unlogged. *)
Lemma get_ga4_report_outcome backend start_date end_date dimensions metrics
    order_by_metric limit tr :
  get_ga4_report backend start_date end_date dimensions metrics
    order_by_metric limit tr
  = match
      and_then (from_service_account_file backend KEY_FILE_LOCATION)
        (fun _ =>
           and_then
             (build_request backend start_date end_date dimensions metrics
                order_by_metric
                match limit with Some l => l | None => limit_default end)
             (run_report backend))
    with
    | Ok response => (Ok response, tr)
    | Err e =>
        (Err e,
         (tr ++ [Log ERROR ("GA4レポート取得中にエラーが発生しました: "
                            ++ str_of e)])%list)
    | Exit b => (Exit b, tr)
    end.
Proof.
  unfold get_ga4_report, try_except, bind, call, logging_error, emit, raise.
  destruct (from_service_account_file backend KEY_FILE_LOCATION);
    [simpl; destruct (build_request _ _ _ _ _ _ _);
       [simpl; destruct (run_report backend _)| |]| |];
    reflexivity.
Qed.

Lemma build_request_in_range backend start_date end_date dimensions metrics
    order_by_metric limit :
  in_int64 limit = true ->
  build_request backend start_date end_date dimensions metrics
    order_by_metric limit
  = Ok (report_request start_date end_date dimensions metrics
          order_by_metric limit).
Proof. unfold build_request. now intros ->. Qed.

Lemma build_request_built backend start_date end_date dimensions metrics
    order_by_metric limit rq :
  build_request backend start_date end_date dimensions metrics
    order_by_metric limit = Ok rq ->
  in_int64 limit = true
  /\ rq = report_request start_date end_date dimensions metrics
            order_by_metric limit.
Proof.
  unfold build_request. destruct (in_int64 limit); [|discriminate].
  intros [= <-]. auto.
Qed.

(** C9 as stated fails: the empty string is a sort metric that is given,
    and the request built for it has no ordering. *)
Lemma empty_sort_metric_is_dropped : ~ orders_when_given (Some "").
Proof.
  intros H. specialize (H "" "" [] [] 0%Z). discriminate H.
Qed.

(** C9, amended: in the request that a call constructs, a sort metric that
    is given and is not the empty string is the single ordering,
    descending; without a sort metric, or with the empty string for it,
    there is no ordering; the request carries the limit passed.  A request
    is constructed for every limit that fits a signed 64-bit integer, so
    for the limit 100000 that stands in when the argument is left out; and
    the request constructed is the one run once the key file is read.  For
    another limit the constructor's exception is logged and raised again
    in place of a run. *)
Theorem report_request_ordering (backend : Backend)
    (start_date end_date : string) (dimensions metrics : list string)
    (order_by_metric : option string) (limit : Z) (tr : trace) :
  (forall rq,
     build_request backend start_date end_date dimensions metrics
       order_by_metric limit = Ok rq ->
     (forall name, order_by_metric = Some name -> name <> "" ->
        rq_order_bys rq
        = [ {| ob_metric := {| metric_name := name |}; ob_desc := true |} ])
     /\ (order_by_metric = None \/ order_by_metric = Some "" ->
         rq_order_bys rq = [])
     /\ rq_limit rq = limit
     /\ (from_service_account_file backend KEY_FILE_LOCATION = Ok tt ->
         fst (get_ga4_report backend start_date end_date dimensions metrics
                order_by_metric (Some limit) tr)
         = run_report backend rq))
  /\ (in_int64 limit = true ->
      exists rq,
        build_request backend start_date end_date dimensions metrics
          order_by_metric limit = Ok rq)
  /\ (exists rq,
        build_request backend start_date end_date dimensions metrics
          order_by_metric 100000%Z = Ok rq
        /\ rq_limit rq = 100000%Z)
  /\ get_ga4_report backend start_date end_date dimensions metrics
       order_by_metric None tr
     = get_ga4_report backend start_date end_date dimensions metrics
         order_by_metric (Some 100000%Z) tr
  /\ (in_int64 limit = false ->
      from_service_account_file backend KEY_FILE_LOCATION = Ok tt ->
      get_ga4_report backend start_date end_date dimensions metrics
        order_by_metric (Some limit) tr
      = (Err (limit_refused backend limit),
         (tr ++ [Log ERROR ("GA4レポート取得中にエラーが発生しました: "
                            ++ str_of (limit_refused backend limit))])%list)).
Proof.
  split; [|split; [|split; [|split]]].
  - intros rq Hrq. pose proof Hrq as Hbuilt.
    apply build_request_built in Hbuilt. destruct Hbuilt as [_ ->].
    repeat split.
    + intros name -> Hname. destruct name; [contradiction|reflexivity].
    + intros [-> | ->]; reflexivity.
    + intros Hkey. rewrite get_ga4_report_outcome, Hkey. simpl.
      rewrite Hrq. simpl. now destruct (run_report backend _).
  - intros Hrange. eexists. now apply build_request_in_range.
  - eexists. split; [now apply build_request_in_range|reflexivity].
  - reflexivity.
  - intros Hrange Hkey. rewrite get_ga4_report_outcome, Hkey. simpl.
    unfold build_request. rewrite Hrange. reflexivity.
Qed.

(** ** The handler *)

Abbreviation fetch backend :=
  (get_ga4_report backend Params.start_date Params.end_date
     Params.dimensions Params.metrics
     (Some Params.order_by_metric) (Some Params.limit)).

Abbreviation info := (Log INFO "GAのレポート取得情報").

Lemma fetch_outcome backend tr :
  fetch backend tr
  = match
      and_then (from_service_account_file backend KEY_FILE_LOCATION)
        (fun _ => run_report backend main_request)
    with
    | Ok response => (Ok response, tr)
    | Err e =>
        (Err e,
         (tr ++ [Log ERROR ("GA4レポート取得中にエラーが発生しました: "
                            ++ str_of e)])%list)
    | Exit b => (Exit b, tr)
    end.
Proof.
  rewrite get_ga4_report_outcome.
  now destruct (from_service_account_file backend KEY_FILE_LOCATION).
Qed.

Lemma fetch_keeps_trace backend tr response tr' :
  fetch backend tr = (Ok response, tr') -> tr' = tr.
Proof.
  rewrite fetch_outcome.
  destruct (and_then _ _); congruence.
Qed.

Lemma fetch_failure_logs backend tr e tr' :
  fetch backend tr = (Err e, tr') ->
  exists text, tr' = (tr ++ [Log ERROR text])%list.
Proof.
  rewrite fetch_outcome.
  destruct (and_then _ _); intros [= <- <-]; eauto.
Qed.

(** What the conversion comes to, for any object: the text, or the
    exception of the first read or of the encoder, logged and raised
    again. *)
Lemma format_response_as_json_outcome (response : PyResponse) tr :
  format_response_as_json response tr
  = match and_then (read_result response) dumps_result with
    | Ok text => (Ok text, tr)
    | Err e =>
        (Err e,
         (tr ++ [Log ERROR ("JSON形式への変換中にエラーが発生しました: "
                            ++ str_of e)])%list)
    | Exit b => (Exit b, tr)
    end.
Proof.
  unfold format_response_as_json, try_except, bind, call, logging_error,
    emit, raise.
  destruct (read_result response); [simpl; destruct (dumps_result _)| |];
    reflexivity.
Qed.

(** [main] by the outcome of the fetch and of the conversion. *)
Lemma main_outcome backend req tr :
  main backend req tr
  = match fetch backend (tr ++ [info])%list with
    | (Ok response, tr1) =>
        match format_response_as_json response tr1 with
        | (Ok results, tr2) =>
            (Ok {| body := results; status_code := 200 |},
             (tr2 ++ [OutputDocumentSet [("id", "report"); ("data", results)];
                      MsgSet "Report processed"])%list)
        | (Err e, tr2) =>
            (Ok {| body := "エラーが発生しました: " ++ str_of e;
                   status_code := 500 |},
             (tr2 ++ [Log ERROR ("エラーが発生しました: " ++ str_of e)])%list)
        | (Exit b, tr2) => (Exit b, tr2)
        end
    | (Err e, tr1) =>
        (Ok {| body := "エラーが発生しました: " ++ str_of e;
               status_code := 500 |},
         (tr1 ++ [Log ERROR ("エラーが発生しました: " ++ str_of e)])%list)
    | (Exit b, tr1) => (Exit b, tr1)
    end.
Proof.
  unfold main, logging_info. unfold bind at 1. unfold emit at 1.
  unfold try_except at 1. unfold bind at 1.
  destruct (fetch backend (tr ++ [info])%list) as [[response|e|b] tr1];
    try reflexivity.
  unfold bind at 1.
  destruct (format_response_as_json response tr1) as [[results|e|b] tr2];
    try reflexivity.
  unfold bind, outputDocument_set, msg_set, emit, ret, logging_error. simpl.
  now rewrite <- app_assoc.
Qed.

(** C6: when the fetch and the conversion return, [main] answers 200 with
    the converted text as body, after setting the output document to the one
    document with identifier ["report"] and that text as data, and the queue
    message to ["Report processed"]. *)
Theorem main_success (backend : Backend) (req : HttpRequest) (tr tr1 tr2 : trace)
    (response : PyResponse) (text : string) :
  fetch backend (tr ++ [info])%list = (Ok response, tr1) ->
  format_response_as_json response tr1 = (Ok text, tr2) ->
  main backend req tr
  = (Ok {| body := text; status_code := 200 |},
     (tr ++ [info;
             OutputDocumentSet [("id", "report"); ("data", text)];
             MsgSet "Report processed"])%list).
Proof.
  intros Hfetch Hformat.
  pose proof (fetch_keeps_trace _ _ _ _ Hfetch) as ->.
  rewrite main_outcome, Hfetch, Hformat.
  rewrite format_response_as_json_outcome in Hformat.
  destruct (and_then _ _); try discriminate Hformat.
  injection Hformat as _ <-.
  now rewrite <- app_assoc.
Qed.

Lemma main_success_witness :
  main (answering home_response) (get_request []) []
  = (Ok {| body := json_dumps (JArr (result_list home_response));
           status_code := 200 |},
     [info;
      OutputDocumentSet
        [("id", "report");
         ("data", json_dumps (JArr (result_list home_response)))];
      MsgSet "Report processed"]).
Proof.
  apply (main_success (answering home_response) (get_request []) []
           [info] [info] home_response
           (json_dumps (JArr (result_list home_response))));
    reflexivity.
Defined.

(** C7: when the fetch raises, or the conversion raises after it, [main]
    answers 500 with a body that ends in the text of the exception, and
    everything the invocation did besides is logging: neither output binding
    is set. *)
Theorem main_failure (backend : Backend) (req : HttpRequest) (tr : trace)
    (e : Exception) :
  (exists tr1, fetch backend (tr ++ [info])%list = (Err e, tr1))
  \/ (exists response tr1 tr2,
        fetch backend (tr ++ [info])%list = (Ok response, tr1) /\
        format_response_as_json response tr1 = (Err e, tr2)) ->
  exists logs,
    main backend req tr
    = (Ok {| body := "エラーが発生しました: " ++ str_of e; status_code := 500 |},
       (tr ++ logs)%list)
    /\ forallb is_log logs = true.
Proof.
  intros [[tr1 Hfetch]|(response & tr1 & tr2 & Hfetch & Hformat)].
  - destruct (fetch_failure_logs _ _ _ _ Hfetch) as [text ->].
    exists [info; Log ERROR text;
            Log ERROR ("エラーが発生しました: " ++ str_of e)].
    split; [|reflexivity].
    rewrite main_outcome, Hfetch. now rewrite <- !app_assoc.
  - pose proof (fetch_keeps_trace _ _ _ _ Hfetch) as ->.
    exists [info;
            Log ERROR ("JSON形式への変換中にエラーが発生しました: " ++ str_of e);
            Log ERROR ("エラーが発生しました: " ++ str_of e)].
    split; [|reflexivity].
    rewrite main_outcome, Hfetch, Hformat.
    rewrite format_response_as_json_outcome in Hformat.
    destruct (and_then _ _); try discriminate Hformat.
    injection Hformat as -> <-. now rewrite <- !app_assoc.
Qed.

Lemma main_failure_witness :
  (exists logs,
     main (failing "File not found") (get_request []) []
     = (Ok {| body := "エラーが発生しました: File not found";
              status_code := 500 |}, logs)
     /\ forallb is_log logs = true)
  /\ (exists logs,
        main (handing_back (without_rows "no attribute 'rows'"))
          (get_request []) []
        = (Ok {| body := "エラーが発生しました: no attribute 'rows'";
                 status_code := 500 |}, logs)
        /\ forallb is_log logs = true).
Proof.
  split.
  - apply (main_failure (failing "File not found") (get_request []) []
             {| str_of := "File not found" |}).
    left. eexists. reflexivity.
  - apply (main_failure (handing_back (without_rows "no attribute 'rows'"))
             (get_request []) [] {| str_of := "no attribute 'rows'" |}).
    right. do 3 eexists. split; reflexivity.
Defined.

(** C8: [main] does not look at the request.  Two invocations whose
    backends read the key file alike and answer the fixed report request
    alike end alike, in the response and in every event, whatever the two
    requests are. *)
Theorem main_ignores_request (backend1 backend2 : Backend)
    (req1 req2 : HttpRequest) (tr : trace) :
  from_service_account_file backend1 KEY_FILE_LOCATION
  = from_service_account_file backend2 KEY_FILE_LOCATION ->
  run_report backend1
    (report_request Params.start_date Params.end_date Params.dimensions
       Params.metrics (Some Params.order_by_metric) Params.limit)
  = run_report backend2
      (report_request Params.start_date Params.end_date Params.dimensions
         Params.metrics (Some Params.order_by_metric) Params.limit) ->
  main backend1 req1 tr = main backend2 req2 tr.
Proof.
  intros Hkey Hrun. rewrite !main_outcome, !fetch_outcome.
  unfold main_request. now rewrite Hkey, Hrun.
Qed.

Lemma main_ignores_request_witness :
  main (answering home_response) (get_request [("limit", "5")]) []
  = main (answering home_response)
      {| req_method := "POST"; req_url := "/api/detail?start=2020-01-01";
         req_headers := [("X-Limit", "1")]; req_params := [("start", "2020-01-01")];
         req_body := "{}" |} [].
Proof.
  apply (main_ignores_request (answering home_response)
           (answering home_response)); reflexivity.
Defined.

(** * Further properties *)

(** ** The fetch *)

(** X1: a call of [get_ga4_report] that raises an [Exception] has logged
    exactly one error record, made of the fixed prefix and the text of the
    exception, and the exception is the one that reading the key file
    raised, or the one with which the request was refused for a limit out
    of range, no report being run, or the one that running the request
    raised.  A call that a [BaseException] of the other kind leaves has
    logged nothing. *)
Theorem fetch_failure_is_logged_once (backend : Backend)
    (since until : string) (dimensions metrics : list string)
    (order_by_metric : option string) (limit : option Z) (tr : trace) :
  (forall e tr',
     get_ga4_report backend since until dimensions metrics
       order_by_metric limit tr = (Err e, tr') ->
     tr' = (tr ++ [Log ERROR ("GA4レポート取得中にエラーが発生しました: "
                              ++ str_of e)])%list
     /\ (from_service_account_file backend KEY_FILE_LOCATION = Err e
         \/ from_service_account_file backend KEY_FILE_LOCATION = Ok tt
            /\ in_int64 match limit with Some l => l | None => 100000%Z end
               = false
            /\ e = limit_refused backend
                     match limit with Some l => l | None => 100000%Z end
         \/ from_service_account_file backend KEY_FILE_LOCATION = Ok tt
            /\ in_int64 match limit with Some l => l | None => 100000%Z end
               = true
            /\ run_report backend
                 (report_request since until dimensions metrics
                    order_by_metric
                    match limit with Some l => l | None => 100000%Z end)
               = Err e))
  /\ (forall b tr',
        get_ga4_report backend since until dimensions metrics
          order_by_metric limit tr = (Exit b, tr') ->
        tr' = tr).
Proof.
  split; intros x tr'; rewrite get_ga4_report_outcome;
    unfold build_request, limit_default;
    destruct (from_service_account_file backend KEY_FILE_LOCATION)
      as [[]|e0|b0] eqn:Hkey; simpl;
    try (destruct (in_int64 _) eqn:Hrange; simpl);
    try (destruct (run_report backend _) as [response|e0|b0] eqn:Hrun);
    intros H; try discriminate H; injection H as <- <-;
    try reflexivity; (split; [reflexivity|]); auto.
Qed.

Lemma fetch_failure_is_logged_once_witness :
  get_ga4_report (rejecting "quota") "2023-01-01" "today" ["city"]
    ["sessions"] None None []
  = (Err {| str_of := "quota" |},
     [Log ERROR "GA4レポート取得中にエラーが発生しました: quota"])
  /\ from_service_account_file (rejecting "quota") KEY_FILE_LOCATION = Ok tt.
Proof.
  split; [|reflexivity].
  destruct (proj1 (fetch_failure_is_logged_once (rejecting "quota")
                     "2023-01-01" "today" ["city"] ["sessions"] None None [])
              {| str_of := "quota" |}
              [Log ERROR "GA4レポート取得中にエラーが発生しました: quota"]
              eq_refl) as [_ _].
  reflexivity.
Defined.

(** X2: the request built carries the fixed property, the one date range
    given, the dimension names and the metric names in the order given, and
    at most one ordering, which is never ascending. *)
Theorem report_request_shape (since until : string)
    (dimensions metrics : list string) (order_by_metric : option string)
    (limit : Z) :
  rq_property
    (report_request since until dimensions metrics order_by_metric
       limit) = "properties/469101596"
  /\ rq_date_ranges
       (report_request since until dimensions metrics order_by_metric
          limit)
     = [ {| start_date := since; end_date := until |} ]
  /\ map dim_name
       (rq_dimensions
          (report_request since until dimensions metrics
             order_by_metric limit)) = dimensions
  /\ map met_name
       (rq_metrics
          (report_request since until dimensions metrics
             order_by_metric limit)) = metrics
  /\ length
       (rq_order_bys
          (report_request since until dimensions metrics
             order_by_metric limit)) <= 1
  /\ Forall (fun ob => ob_desc ob = true)
       (rq_order_bys
          (report_request since until dimensions metrics
             order_by_metric limit)).
Proof.
  repeat split.
  - simpl. rewrite map_map. simpl. apply map_id.
  - simpl. rewrite map_map. simpl. apply map_id.
  - destruct order_by_metric as [[|c name]|]; simpl; lia.
  - destruct order_by_metric as [[|c name]|]; simpl; repeat constructor.
Qed.

(** X3: a call of [get_ga4_report] that returns has logged nothing, has
    read the key file, and hands back, as it is, the response that running
    the built request gave. *)
Theorem fetch_success_is_silent (backend : Backend)
    (since until : string) (dimensions metrics : list string)
    (order_by_metric : option string) (limit : option Z)
    (tr tr' : trace) (response : PyResponse) :
  get_ga4_report backend since until dimensions metrics
    order_by_metric limit tr = (Ok response, tr') ->
  tr' = tr
  /\ from_service_account_file backend KEY_FILE_LOCATION = Ok tt
  /\ run_report backend
       (report_request since until dimensions metrics order_by_metric
          match limit with Some l => l | None => 100000%Z end)
     = Ok response.
Proof.
  rewrite get_ga4_report_outcome. unfold build_request, limit_default.
  destruct (from_service_account_file backend KEY_FILE_LOCATION)
    as [[]|e0|b0]; simpl; try discriminate.
  destruct (in_int64 _); simpl; try discriminate.
  destruct (run_report backend _) as [response0|e0|b0]; try discriminate.
  intros [= -> <-]. auto.
Qed.

Lemma fetch_success_is_silent_witness :
  get_ga4_report (answering tokyo_response) "2023-01-01" "today" ["city"]
    ["sessions"] None None [Log INFO "before"]
  = (Ok (message tokyo_response), [Log INFO "before"]).
Proof.
  destruct (fetch_success_is_silent (answering tokyo_response) "2023-01-01"
              "today" ["city"] ["sessions"] None None [Log INFO "before"]
              [Log INFO "before"] tokyo_response eq_refl) as [_ _].
  reflexivity.
Defined.

(** ** The handler, whatever the backend does *)

(** X4: [main] lets no [Exception] out.  What it returns is a response with
    status 200 or 500, after the events that were there and its info
    record.  It is left otherwise only by a [BaseException] of the other
    kind, and then has logged its info record and nothing more. *)
Theorem main_always_answers (backend : Backend) (req : HttpRequest)
    (tr : trace) :
  (forall e tr', main backend req tr <> (Err e, tr'))
  /\ (forall resp tr',
        main backend req tr = (Ok resp, tr') ->
        (status_code resp = 200%Z \/ status_code resp = 500%Z)
        /\ exists added,
             tr' = (tr ++ Log INFO "GAのレポート取得情報" :: added)%list)
  /\ (forall b tr',
        main backend req tr = (Exit b, tr') ->
        tr' = (tr ++ [Log INFO "GAのレポート取得情報"])%list).
Proof.
  rewrite main_outcome, fetch_outcome.
  destruct (and_then _ _) as [response|e0|b0].
  - rewrite format_response_as_json_outcome.
    destruct (and_then _ _) as [text|e0|b0]; repeat split;
      intros; try discriminate;
      match goal with H : (_, _) = (_, _) |- _ => injection H as <- <- end;
      simpl; auto; rewrite <- !app_assoc; simpl; eauto.
  - repeat split; intros; try discriminate;
      match goal with H : (_, _) = (_, _) |- _ => injection H as <- <- end;
      simpl; auto; rewrite <- !app_assoc; simpl; eauto.
  - repeat split; intros; try discriminate;
      match goal with H : (_, _) = (_, _) |- _ => injection H as <- <- end;
      reflexivity.
Qed.

(** X5: the two outputs go with the status.  When [main] returns, the
    output document is set exactly when the status is 200, and so is the
    queue message; a document that is set has the identifier ["report"] and,
    as data, the body of the response.  When [main] does not return, no
    output is set. *)
Theorem outputs_go_with_status (backend : Backend) (req : HttpRequest)
    (tr : trace) :
  exists added,
    snd (main backend req tr) = (tr ++ added)%list
    /\ (forall resp,
          fst (main backend req tr) = Ok resp ->
          (status_code resp = 200%Z <->
           In (OutputDocumentSet [("id", "report"); ("data", body resp)])
             added)
          /\ (status_code resp = 200%Z <->
              In (MsgSet "Report processed") added)
          /\ (forall doc, In (OutputDocumentSet doc) added ->
                          doc = [("id", "report"); ("data", body resp)])
          /\ (forall text, In (MsgSet text) added ->
                           text = "Report processed"))
    /\ ((forall resp, fst (main backend req tr) <> Ok resp) ->
        forallb is_log added = true).
Proof.
  rewrite main_outcome, fetch_outcome.
  destruct (and_then _ _) as [response|e0|b0];
    [rewrite format_response_as_json_outcome;
     destruct (and_then _ _) as [text|e0|b0]| |];
    eexists; rewrite <- ?app_assoc; (split; [reflexivity|]);
    simpl; (split; [intros resp [= <-]|intros Hno]);
    simpl; repeat split; intros;
    try (exfalso; eapply Hno; reflexivity);
    intuition (try discriminate; try congruence).
Qed.

(** X6: when the key file is read and the backend answers the request of
    [main] with a response, the body of the 200 response reads as a JSON
    array with one element per row of that response. *)
Theorem main_body_lists_rows (backend : Backend) (req : HttpRequest)
    (tr : trace) (response : RunReportResponse) :
  from_service_account_file backend KEY_FILE_LOCATION = Ok tt ->
  run_report backend main_request = Ok response ->
  exists resp tr' records,
    main backend req tr = (Ok resp, tr')
    /\ status_code resp = 200%Z
    /\ json_loads (body resp) = Some (JArr records)
    /\ length records = length (rows response).
Proof.
  intros Hkey Hrun.
  rewrite main_outcome, fetch_outcome, Hkey. simpl. rewrite Hrun.
  rewrite format_response_as_json_returns.
  eexists; eexists; exists (result_list response).
  split; [reflexivity|]. split; [reflexivity|]. simpl. split.
  - apply json_loads_dumps, wf_result_list.
  - apply length_map.
Qed.

Lemma main_body_lists_rows_witness :
  exists resp tr' records,
    main (answering tokyo_response) (get_request []) [] = (Ok resp, tr')
    /\ status_code resp = 200%Z
    /\ json_loads (body resp) = Some (JArr records)
    /\ length records = 1.
Proof.
  apply (main_body_lists_rows (answering tokyo_response) (get_request []) []
           tokyo_response); reflexivity.
Defined.

(** X7: when reading the key file fails, or the key file is read and
    running the request of [main] fails, the failure is logged twice, once
    by the fetch and once by [main], after the info record; [main] answers
    500 with its prefix and the text of the exception, and sets nothing. *)
Theorem backend_failure_is_logged_twice (backend : Backend)
    (req : HttpRequest) (tr : trace) (e : Exception) :
  from_service_account_file backend KEY_FILE_LOCATION = Err e
  \/ from_service_account_file backend KEY_FILE_LOCATION = Ok tt
     /\ run_report backend main_request = Err e ->
  main backend req tr
  = (Ok {| body := "エラーが発生しました: " ++ str_of e; status_code := 500 |},
     (tr ++ [Log INFO "GAのレポート取得情報";
             Log ERROR ("GA4レポート取得中にエラーが発生しました: " ++ str_of e);
             Log ERROR ("エラーが発生しました: " ++ str_of e)])%list).
Proof.
  intros [Hkey|[Hkey Hrun]];
    rewrite main_outcome, fetch_outcome, Hkey; simpl;
    rewrite ?Hrun, <- !app_assoc; reflexivity.
Qed.

Lemma backend_failure_is_logged_twice_witness :
  main (rejecting "quota") (get_request []) []
  = (Ok {| body := "エラーが発生しました: quota"; status_code := 500 |},
     [Log INFO "GAのレポート取得情報";
      Log ERROR "GA4レポート取得中にエラーが発生しました: quota";
      Log ERROR "エラーが発生しました: quota"]).
Proof.
  apply (backend_failure_is_logged_twice (rejecting "quota") (get_request [])
           [] {| str_of := "quota" |}).
  right. split; reflexivity.
Defined.

(** ** Looking a header up in a record *)

(** The value kept under a name is the one at the last position, among those
    the row has a value for, where the name stands. *)
Lemma zip_dict_get_last names values j k v :
  nth_error names j = Some k ->
  nth_error values j = Some v ->
  (forall j', j < j' -> j' < length values -> nth_error names j' <> Some k) ->
  PyDict.get k (zip_dict names values) = Some (JStr v).
Proof.
  intros Hj Hv Hlast.
  assert (Hnth : nth_error (combine names values) j = Some (k, v))
    by now rewrite nth_error_combine, Hj, Hv.
  destruct (nth_error_split _ _ Hnth) as (p1 & p2 & Hsplit & Hp1).
  unfold zip_dict. rewrite Hsplit, map_app. simpl.
  apply PyDictFacts.get_of_pairs_last.
  rewrite map_map. intros Hin. apply in_map_iff in Hin.
  destruct Hin as ([k' v'] & Hk & Hin). simpl in Hk. subst k'.
  apply In_nth_error in Hin. destruct Hin as [n Hn].
  assert (Hpos : nth_error (combine names values) (j + S n) = Some (k, v')).
  { rewrite Hsplit, nth_error_app2 by lia.
    replace (j + S n - length p1) with (S n) by lia. exact Hn. }
  rewrite nth_error_combine in Hpos.
  destruct (nth_error names (j + S n)) as [a|] eqn:Ea; [|discriminate].
  destruct (nth_error values (j + S n)) as [b|] eqn:Eb; [|discriminate].
  injection Hpos as -> ->.
  apply (Hlast (j + S n)); [lia| |exact Ea].
  apply nth_error_Some. congruence.
Qed.

Lemma zip_dict_get_absent names values k :
  ~ In k (firstn (length values) names) ->
  PyDict.get k (zip_dict names values) = None.
Proof.
  intros Hk. unfold zip_dict, PyDict.of_pairs.
  rewrite PyDictFacts.get_store_absent; [reflexivity|].
  now rewrite zip_keys.
Qed.

(** X8: under distinct header names, the record of a row holds, under the
    name of the header at a position, the row's value at that position,
    for every position at which the row has a value. *)
Theorem lookup_by_header (response : RunReportResponse) (row : Row)
    (f : field) (n j : nat) (name v : string) (tr : trace) :
  NoDup (header_names f response) ->
  nth_error (rows response) n = Some row ->
  nth_error (header_names f response) j = Some name ->
  nth_error (row_values f row) j = Some v ->
  exists text records record d,
    format_response_as_json response tr = (Ok text, tr) /\
    json_loads text = Some (JArr records) /\
    nth_error records n = Some record /\
    entries f record = Some d /\
    PyDict.get name d = Some (JStr v).
Proof.
  intros Hnd Hrow Hname Hv.
  destruct (format_response_as_json_reads_back response tr)
    as (text & Hret & Hload & _).
  exists text, (result_list response), (row_data response row),
    (zip_dict (header_names f response) (row_values f row)).
  repeat split; try assumption.
  - unfold result_list. now rewrite nth_error_map, Hrow.
  - apply entries_row_data.
  - apply (zip_dict_get_last _ _ j); try assumption.
    intros j' Hlt _ Hj'. rewrite NoDup_nth_error in Hnd.
    assert (j = j'); [|lia].
    apply Hnd; [|congruence].
    apply nth_error_Some. congruence.
Qed.

Lemma lookup_by_header_witness :
  exists text records record d,
    format_response_as_json tokyo_response [] = (Ok text, []) /\
    json_loads text = Some (JArr records) /\
    nth_error records 0 = Some record /\
    entries Dimensions record = Some d /\
    PyDict.get "country" d = Some (JStr "日本").
Proof.
  apply (lookup_by_header tokyo_response
           {| dimension_values := [ {| dv_value := "東京" |};
                                    {| dv_value := "日本" |} ];
              metric_values := [ {| mv_value := "3" |} ] |}
           Dimensions 0 1 "country" "日本" []); try reflexivity.
  simpl. constructor; [simpl; intuition discriminate|].
  constructor; [simpl; tauto|constructor].
Defined.

(** X9: under distinct header names and with a value for every header, the
    keys of a record's mapping are the header names, in the order of the
    headers. *)
Theorem keys_follow_headers (response : RunReportResponse) (row : Row)
    (f : field) (n : nat) (tr : trace) :
  NoDup (header_names f response) ->
  nth_error (rows response) n = Some row ->
  length (header_names f response) <= length (row_values f row) ->
  exists text records record d,
    format_response_as_json response tr = (Ok text, tr) /\
    json_loads text = Some (JArr records) /\
    nth_error records n = Some record /\
    entries f record = Some d /\
    PyDict.keys d = header_names f response.
Proof.
  intros Hnd Hrow Hlen.
  destruct (format_response_as_json_reads_back response tr)
    as (text & Hret & Hload & _).
  exists text, (result_list response), (row_data response row),
    (zip_dict (header_names f response) (row_values f row)).
  repeat split; try assumption.
  - unfold result_list. now rewrite nth_error_map, Hrow.
  - apply entries_row_data.
  - rewrite zip_dict_aligned by assumption. unfold PyDict.keys.
    rewrite zip_keys. now apply firstn_all2.
Qed.

Lemma keys_follow_headers_witness :
  exists text records record d,
    format_response_as_json tokyo_response [] = (Ok text, []) /\
    json_loads text = Some (JArr records) /\
    nth_error records 0 = Some record /\
    entries Dimensions record = Some d /\
    PyDict.keys d = ["city"; "country"].
Proof.
  apply (keys_follow_headers tokyo_response
           {| dimension_values := [ {| dv_value := "東京" |};
                                    {| dv_value := "日本" |} ];
              metric_values := [ {| mv_value := "3" |} ] |}
           Dimensions 0 []); try reflexivity; try (simpl; lia).
  simpl. constructor; [simpl; intuition discriminate|].
  constructor; [simpl; tauto|constructor].
Defined.

(** X10: a name that stands at none of the header positions for which the
    row has a value is no key of the row's record: a header beyond the
    row's values is left out, not filled in. *)
Theorem header_without_value_is_absent (response : RunReportResponse)
    (row : Row) (f : field) (n : nat) (name : string) (tr : trace) :
  nth_error (rows response) n = Some row ->
  ~ In name (firstn (length (row_values f row)) (header_names f response)) ->
  exists text records record d,
    format_response_as_json response tr = (Ok text, tr) /\
    json_loads text = Some (JArr records) /\
    nth_error records n = Some record /\
    entries f record = Some d /\
    PyDict.get name d = None.
Proof.
  intros Hrow Hname.
  destruct (format_response_as_json_reads_back response tr)
    as (text & Hret & Hload & _).
  exists text, (result_list response), (row_data response row),
    (zip_dict (header_names f response) (row_values f row)).
  repeat split; try assumption.
  - unfold result_list. now rewrite nth_error_map, Hrow.
  - apply entries_row_data.
  - now apply zip_dict_get_absent.
Qed.

Lemma header_without_value_is_absent_witness :
  exists text records record d,
    format_response_as_json short_row_response [] = (Ok text, []) /\
    json_loads text = Some (JArr records) /\
    nth_error records 0 = Some record /\
    entries Dimensions record = Some d /\
    PyDict.get "pagePath" d = None.
Proof.
  apply (header_without_value_is_absent short_row_response
           {| dimension_values := [];
              metric_values := [ {| mv_value := "42" |} ] |}
           Dimensions 0 "pagePath" []); [reflexivity|].
  simpl. tauto.
Defined.

(** ** Values beyond the headers *)

Lemma row_data_clip response row :
  row_data (clip_rows response) (clip_row response row)
  = row_data response row.
Proof.
  unfold row_data, clip_rows, clip_row. simpl.
  rewrite <- (length_map dh_name (dimension_headers response)).
  rewrite <- (length_map mh_name (metric_headers response)).
  now rewrite <- !combine_firstn_l.
Qed.

(** X11: the values a row carries beyond the number of headers play no part:
    the response with every row cut down to the number of headers gives
    the same text. *)
Theorem surplus_values_are_ignored (response : RunReportResponse)
    (tr : trace) :
  format_response_as_json (clip_rows response) tr
  = format_response_as_json response tr.
Proof.
  rewrite !format_response_as_json_returns. do 4 f_equal.
  unfold result_list. simpl. rewrite map_map.
  apply map_ext. intros row. apply row_data_clip.
Qed.

(** X12: under no header at all, every row gives the record with two empty
    mappings, whatever values the row carries. *)
Theorem no_headers_give_empty_records (response : RunReportResponse)
    (tr : trace) :
  dimension_headers response = [] ->
  metric_headers response = [] ->
  exists text,
    format_response_as_json response tr = (Ok text, tr) /\
    json_loads text
    = Some (JArr (repeat empty_record (length (rows response)))).
Proof.
  intros Hd Hm.
  destruct (format_response_as_json_reads_back response tr)
    as (text & Hret & Hload & _).
  exists text. split; [exact Hret|]. rewrite Hload. do 2 f_equal.
  unfold result_list, row_data. rewrite Hd, Hm. simpl.
  induction (rows response) as [|row l IH]; simpl; [reflexivity|].
  now rewrite IH.
Qed.

Lemma no_headers_give_empty_records_witness :
  exists text,
    format_response_as_json
      {| dimension_headers := []; metric_headers := [];
         rows := rows long_row_response |} []
    = (Ok text, []) /\
    json_loads text = Some (JArr [empty_record]).
Proof.
  apply (no_headers_give_empty_records
           {| dimension_headers := []; metric_headers := [];
              rows := rows long_row_response |} []); reflexivity.
Defined.

(** ** The characters of the text *)


Lemma escape_char_plain c : plain_char c = true -> escape_char c = String c "".
Proof.
  destruct c as [[] [] [] [] [] [] [] []]; intros H;
    first [reflexivity | discriminate H].
Qed.

Lemma escape_plain s : all_chars plain_char s = true -> escape s = s.
Proof.
  induction s as [|c s IH]; simpl; [reflexivity|].
  intros H. apply andb_prop in H. destruct H as [Hc Hs].
  now rewrite escape_char_plain, IH.
Qed.

Lemma high_bytes_are_plain c : N.leb 128 (ord c) = true -> plain_char c = true.
Proof.
  destruct c as [[] [] [] [] [] [] [] []]; intros H;
    first [reflexivity | discriminate H].
Qed.

(** X13: a string without control character, double quote or backslash is
    written between two double quotes as it is; the bytes of characters
    outside ASCII are among those kept. *)
Theorem plain_text_is_kept (s : string) :
  all_chars plain_char s = true ->
  py_encode_basestring s = quote ++ s ++ quote
  /\ scanstring (s ++ quote) = Some (s, "").
Proof.
  intros H. pose proof (escape_plain s H) as He. split.
  - unfold py_encode_basestring. now rewrite He.
  - rewrite <- He at 1. apply (scanstring_escape s "").
Qed.

Lemma plain_text_is_kept_witness :
  all_chars (fun c => N.leb 128 (ord c)) "東京" = true
  /\ py_encode_basestring "東京" = quote ++ "東京" ++ quote.
Proof.
  split; [reflexivity|].
  apply (plain_text_is_kept "東京"). reflexivity.
Defined.










(** ** From the text back to the rows *)

Lemma json_dumps_injective v w :
  wf_json v -> wf_json w -> json_dumps v = json_dumps w -> v = w.
Proof.
  intros Hv Hw H. apply json_loads_dumps in Hv, Hw.
  rewrite H in Hv. congruence.
Qed.

Lemma zip_pairs_injective (n1 n2 v1 v2 : list string) :
  length v1 = length n1 -> length v2 = length n2 ->
  map (fun p : string * string => (fst p, JStr (snd p))) (combine n1 v1)
  = map (fun p : string * string => (fst p, JStr (snd p))) (combine n2 v2) ->
  n1 = n2 /\ v1 = v2.
Proof.
  revert n2 v1 v2. induction n1 as [|a n1 IH]; intros [|b n2] [|x v1] [|y v2];
    simpl; intros H1 H2 H; try discriminate; auto.
  injection H as -> -> H. injection H1 as H1. injection H2 as H2.
  destruct (IH _ _ _ H1 H2 H) as [-> ->]. auto.
Qed.

Lemma map_dv_value_injective l1 l2 :
  map dv_value l1 = map dv_value l2 -> l1 = l2.
Proof.
  revert l2. induction l1 as [|[a] l1 IH]; intros [|[b] l2] H;
    try discriminate; [reflexivity|].
  simpl in H. injection H as -> H. now rewrite (IH _ H).
Qed.

Lemma map_mv_value_injective l1 l2 :
  map mv_value l1 = map mv_value l2 -> l1 = l2.
Proof.
  revert l2. induction l1 as [|[a] l1 IH]; intros [|[b] l2] H;
    try discriminate; [reflexivity|].
  simpl in H. injection H as -> H. now rewrite (IH _ H).
Qed.

(** X15: nothing of an aligned response is lost in the text.  When two
    responses, each with distinct header names of each kind and with as
    many values in every row as headers, give the same text, they have the
    same rows and, unless they have no row, the same header names. *)
Theorem text_determines_rows (r1 r2 : RunReportResponse) (tr1 tr2 : trace)
    (text : string) :
  (forall f, NoDup (header_names f r1)) ->
  (forall f, NoDup (header_names f r2)) ->
  (forall row f, In row (rows r1) ->
                 length (row_values f row) = length (header_names f r1)) ->
  (forall row f, In row (rows r2) ->
                 length (row_values f row) = length (header_names f r2)) ->
  format_response_as_json r1 tr1 = (Ok text, tr1) ->
  format_response_as_json r2 tr2 = (Ok text, tr2) ->
  rows r1 = rows r2
  /\ (rows r1 <> [] -> forall f, header_names f r1 = header_names f r2).
Proof.
  intros Hnd1 Hnd2 Hlen1 Hlen2 Hret1 Hret2.
  rewrite format_response_as_json_returns in Hret1, Hret2.
  injection Hret1 as Ht1. injection Hret2 as Ht2.
  assert (Hres : result_list r1 = result_list r2).
  { assert (H : JArr (result_list r1) = JArr (result_list r2))
      by (apply json_dumps_injective; [apply wf_result_list ..|congruence]).
    now injection H. }
  clear Ht1 Ht2. unfold result_list in Hres.
  assert (Hrow : forall row1 row2,
             In row1 (rows r1) -> In row2 (rows r2) ->
             row_data r1 row1 = row_data r2 row2 ->
             row1 = row2 /\ forall f, header_names f r1 = header_names f r2).
  { intros row1 row2 Hin1 Hin2 Hdata. rewrite !row_data_zip in Hdata.
    injection Hdata as Hd Hm.
    pose proof (fun f => Hlen1 row1 f Hin1) as Hl1.
    pose proof (fun f => Hlen2 row2 f Hin2) as Hl2.
    rewrite (zip_dict_aligned _ _ (Hnd1 Dimensions)) in Hd
      by (pose proof (Hl1 Dimensions) as E; simpl in E |- *; lia).
    rewrite (zip_dict_aligned _ _ (Hnd2 Dimensions)) in Hd
      by (pose proof (Hl2 Dimensions) as E; simpl in E |- *; lia).
    rewrite (zip_dict_aligned _ _ (Hnd1 Metrics)) in Hm
      by (pose proof (Hl1 Metrics) as E; simpl in E |- *; lia).
    rewrite (zip_dict_aligned _ _ (Hnd2 Metrics)) in Hm
      by (pose proof (Hl2 Metrics) as E; simpl in E |- *; lia).
    apply zip_pairs_injective in Hd;
      [|exact (Hl1 Dimensions)|exact (Hl2 Dimensions)].
    apply zip_pairs_injective in Hm;
      [|exact (Hl1 Metrics)|exact (Hl2 Metrics)].
    destruct Hd as [Hdn Hdv], Hm as [Hmn Hmv]. split.
    - destruct row1 as [d1 m1], row2 as [d2 m2]. simpl in Hdv, Hmv.
      apply map_dv_value_injective in Hdv.
      apply map_mv_value_injective in Hmv. now subst.
    - intros []; assumption. }
  clear Hnd1 Hnd2 Hlen1 Hlen2.
  revert Hres Hrow. generalize (rows r2). generalize (rows r1).
  induction l as [|row1 l1 IH]; intros [|row2 l2] Hres Hrow;
    try discriminate; [split; [reflexivity|congruence]|].
  simpl in Hres.
  assert (Hhead : row_data r1 row1 = row_data r2 row2) by congruence.
  assert (Htail : map (row_data r1) l1 = map (row_data r2) l2) by congruence.
  destruct (Hrow row1 row2 (or_introl eq_refl) (or_introl eq_refl) Hhead)
    as [-> Hnames].
  split; [|intros _; exact Hnames].
  f_equal. apply (IH l2 Htail).
  intros a b Ha Hb. apply Hrow; now right.
Qed.

Lemma text_determines_rows_witness :
  rows tokyo_response = rows tokyo_response
  /\ (forall row f, In row (rows tokyo_response) ->
        length (row_values f row) = length (header_names f tokyo_response)).
Proof.
  assert (Hnd : forall f, NoDup (header_names f tokyo_response)).
  { intros []; simpl.
    - constructor; [simpl; intuition discriminate|].
      constructor; [simpl; tauto|constructor].
    - constructor; [simpl; tauto|constructor]. }
  assert (Hlen : forall row f, In row (rows tokyo_response) ->
            length (row_values f row) = length (header_names f tokyo_response)).
  { intros row f [<-|[]]. now destruct f. }
  split; [|exact Hlen].
  apply (text_determines_rows tokyo_response tokyo_response [] []
           (json_dumps (JArr (result_list tokyo_response)))
           Hnd Hnd Hlen Hlen eq_refl eq_refl).
Defined.

(** ** Objects that are no message *)

(** X16: whatever object it is given, a conversion that raises an
    [Exception] has logged exactly one error record, made of its prefix and
    the text of the exception; one that returns, or that a [BaseException]
    of the other kind leaves, has logged nothing.  When reading [rows]
    raises, that exception is the one raised. *)
Theorem conversion_failure_is_logged_once (response : PyResponse)
    (tr : trace) :
  (forall e tr',
     format_response_as_json response tr = (Err e, tr') ->
     tr' = (tr ++ [Log ERROR ("JSON形式への変換中にエラーが発生しました: "
                              ++ str_of e)])%list)
  /\ (forall text tr',
        format_response_as_json response tr = (Ok text, tr') -> tr' = tr)
  /\ (forall b tr',
        format_response_as_json response tr = (Exit b, tr') -> tr' = tr)
  /\ (forall e,
        read_rows response = Err e ->
        fst (format_response_as_json response tr) = Err e).
Proof.
  rewrite format_response_as_json_outcome. repeat split.
  - intros e tr'. destruct (and_then _ _); intros [= <- <-]. reflexivity.
  - intros text tr'. destruct (and_then _ _); intros [= <- <-]. reflexivity.
  - intros b tr'. destruct (and_then _ _); intros [= <- <-]. reflexivity.
  - intros e He. unfold read_result. rewrite He. reflexivity.
Qed.

(** X17: when the object has no row, no header attribute is read: the text
    is that of the empty array and nothing is raised or logged, even if
    reading the header lists would raise. *)
Theorem no_row_reads_no_header (response : PyResponse) (tr : trace) :
  read_rows response = Ok [] ->
  format_response_as_json response tr = (Ok "[]", tr).
Proof.
  intros Hrows. rewrite format_response_as_json_outcome.
  unfold read_result. rewrite Hrows. reflexivity.
Qed.

Lemma no_row_reads_no_header_witness :
  format_response_as_json
    {| read_rows := Ok [];
       read_dimension_headers := Err {| str_of := "no dimension_headers" |};
       read_metric_headers := Err {| str_of := "no metric_headers" |} |} []
  = (Ok "[]", []).
Proof.
  apply (no_row_reads_no_header
           {| read_rows := Ok [];
              read_dimension_headers :=
                Err {| str_of := "no dimension_headers" |};
              read_metric_headers :=
                Err {| str_of := "no metric_headers" |} |} []).
  reflexivity.
Defined.

(** X18: with a row to convert, the names of all the dimension headers are
    read before anything of the row: when the name of one of them cannot be
    read, the conversion raises that exception, whatever the row holds and
    however few values it has. *)
Theorem unnamed_header_fails_first_row (response : PyResponse)
    (row : PyRow) (others : list PyRow) (headers : list PyHeader)
    (e : Exception) (tr : trace) :
  read_rows response = Ok (row :: others) ->
  read_dimension_headers response = Ok headers ->
  each read_name headers = Err e ->
  format_response_as_json response tr
  = (Err e,
     (tr ++ [Log ERROR ("JSON形式への変換中にエラーが発生しました: "
                        ++ str_of e)])%list).
Proof.
  intros Hrows Hheaders Hname. rewrite format_response_as_json_outcome.
  unfold read_result. rewrite Hrows. simpl.
  unfold read_row_data, zipped, names_read. rewrite Hheaders. simpl.
  rewrite Hname. reflexivity.
Qed.

Lemma unnamed_header_fails_first_row_witness :
  format_response_as_json
    {| read_rows :=
         Ok [ {| read_dimension_values := Ok [];
                 read_metric_values := Ok [] |} ];
       read_dimension_headers :=
         Ok [ {| read_name := Ok "city" |};
              {| read_name := Err {| str_of := "no name" |} |} ];
       read_metric_headers := Ok [] |} []
  = (Err {| str_of := "no name" |},
     [Log ERROR "JSON形式への変換中にエラーが発生しました: no name"]).
Proof.
  apply (unnamed_header_fails_first_row
           {| read_rows :=
                Ok [ {| read_dimension_values := Ok [];
                        read_metric_values := Ok [] |} ];
              read_dimension_headers :=
                Ok [ {| read_name := Ok "city" |};
                     {| read_name := Err {| str_of := "no name" |} |} ];
              read_metric_headers := Ok [] |}
           {| read_dimension_values := Ok []; read_metric_values := Ok [] |}
           []
           [ {| read_name := Ok "city" |};
             {| read_name := Err {| str_of := "no name" |} |} ]
           {| str_of := "no name" |} []); reflexivity.
Defined.

(** Sample runs on objects that are no message. *)

Example conversion_of_object_without_rows :
  format_response_as_json (without_rows "no attribute 'rows'") []
  = (Err {| str_of := "no attribute 'rows'" |},
     [Log ERROR "JSON形式への変換中にエラーが発生しました: no attribute 'rows'"]).
Proof. reflexivity. Qed.

Example conversion_of_unserializable_value :
  format_response_as_json
    {| read_rows :=
         Ok [ {| read_dimension_values :=
                   Ok [ {| read_value :=
                             Ok (Unserializable
                                   {| str_of := "not JSON serializable" |}) |} ];
                 read_metric_values := Ok [] |} ];
       read_dimension_headers := Ok [ {| read_name := Ok "city" |} ];
       read_metric_headers := Ok [] |} []
  = (Err {| str_of := "not JSON serializable" |},
     [Log ERROR
        "JSON形式への変換中にエラーが発生しました: not JSON serializable"]).
Proof. reflexivity. Qed.

Example value_beyond_headers_is_never_read :
  format_response_as_json
    {| read_rows :=
         Ok [ {| read_dimension_values :=
                   Ok [ {| read_value := Ok (Text "Tokyo") |};
                        {| read_value := Err {| str_of := "no value" |} |} ];
                 read_metric_values := Err {| str_of := "no metric_values" |} |} ];
       read_dimension_headers := Ok [ {| read_name := Ok "city" |} ];
       read_metric_headers := Ok [] |} []
  = (Err {| str_of := "no metric_values" |},
     [Log ERROR "JSON形式への変換中にエラーが発生しました: no metric_values"]).
Proof. reflexivity. Qed.

Example interrupt_leaves_main :
  main (interrupted "KeyboardInterrupt") (get_request []) []
  = (Exit {| base_str_of := "KeyboardInterrupt" |},
     [Log INFO "GAのレポート取得情報"]).
Proof. reflexivity. Qed.
